(** * Sei debug agent: task classification, model selection, cost estimate
      and report assembly

    A shallow embedding of the class [ModelSelector]
    ([src/core/model-selector.ts]) and of the pure methods of the class
    [SeiDebugAgent] ([classifyIssue], [formatDebugReport],
    [extractRootCause] and [extractSuggestions], in the sources under
    [src/core/anthropic-client.ts]).

    - A JavaScript [number] is an IEEE 754 binary64 value: [float].
    - A JavaScript string is a sequence of UTF-16 code units: [list N].
    - An optional field ([x?: T]) is an [option T].
    - The regular expressions of the source are values of [regex], run by a
      backtracking matcher with the priorities of the ECMAScript one.
    - Logging ([consola]) and the spinner do not influence any returned
      value and are left out. *)

From Stdlib Require Import Floats String Ascii NArith ZArith Bool Arith Lia List.
Import ListNotations.

Set Warnings "-inexact-float".

(** ** JavaScript values *)

Module JS.

Definition JSString := list N.

(** Code units of an ASCII literal of the source. *)
Definition lit (s : string) : JSString :=
  map N_of_ascii (list_ascii_of_string s).

Definition eqb_string (a b : JSString) : bool :=
  if list_eq_dec N.eq_dec a b then true else false.

(** [ToBoolean] on an optional boolean: [undefined] is falsy. *)
Definition truthy (b : option bool) : bool :=
  match b with
  | Some true => true
  | _ => false
  end.

(** [ToBoolean] on a number: [+0], [-0] and [NaN] are falsy. *)
Definition truthyNumber (x : float) : bool :=
  negb (PrimFloat.is_zero x || PrimFloat.is_nan x).

(** [x || d] for an optional number [x] and a number [d]. *)
Definition orNumber (x : option float) (d : float) : float :=
  match x with
  | Some v => if truthyNumber v then v else d
  | None => d
  end.

(** [x || []] for an optional array. *)
Definition orEmpty {A : Type} (x : option (list A)) : list A :=
  match x with
  | Some l => l
  | None => []
  end.

(** [s.startsWith(p)] at the head of [s], used by [includes]. *)
Fixpoint startsWith (s p : JSString) : bool :=
  match p, s with
  | [], _ => true
  | a :: p', b :: s' => N.eqb a b && startsWith s' p'
  | _ :: _, [] => false
  end.

(** [s.includes(p)]. *)
Fixpoint includes (s p : JSString) : bool :=
  startsWith s p ||
  match s with
  | [] => false
  | _ :: s' => includes s' p
  end.

(** [parts.join(sep)]; an [undefined] element is joined as the empty string. *)
Fixpoint join (sep : JSString) (parts : list (option JSString)) : JSString :=
  match parts with
  | [] => []
  | [p] => orEmpty p
  | p :: rest => orEmpty p ++ sep ++ join sep rest
  end.

(** [[...new Set(l)]]: first occurrences, in insertion order. *)
Fixpoint uniqueFrom (seen l : list JSString) : list JSString :=
  match l with
  | [] => []
  | x :: rest =>
      if existsb (eqb_string x) seen then uniqueFrom seen rest
      else x :: uniqueFrom (x :: seen) rest
  end.

Definition unique (l : list JSString) : list JSString := uniqueFrom [] l.

(** [String.prototype.toLowerCase] restricted to ASCII text, where it maps
    [A-Z] to [a-z] and leaves every other code unit alone. *)
Definition asciiLowerUnit (c : N) : N :=
  if (65 <=? c)%N && (c <=? 90)%N then (c + 32)%N else c.

Definition asciiToLowerCase (s : JSString) : JSString := map asciiLowerUnit s.

End JS.

Import JS.

(** ** Regular expressions *)

Module RegExp.

(** The fragment of ECMAScript patterns the source uses.  A class is a
    predicate on code units; repetition is only ever applied to a class. *)
Inductive regex : Type :=
| Empty                             (* the empty pattern *)
| Class (p : N -> bool)             (* one code unit of a class *)
| Cat (r1 r2 : regex)               (* r1 r2 *)
| Alt (r1 r2 : regex)               (* r1 | r2, left first *)
| Star (p : N -> bool)              (* [p]*, greedy *)
| Times (n : nat) (p : N -> bool)   (* [p]{n} *)
| Group (r : regex).                (* ( r ), capturing *)

(** [p]+ is [p][p]*: the same attempts in the same order. *)
Definition Plus (p : N -> bool) : regex := Cat (Class p) (Star p).

(** A continuation receives the captures closed so far and the rest of the
    input.  Captures are listed in the order their groups close, which is
    their numbering in the patterns of the source: none nests a group in
    another. *)
Definition cont (R : Type) : Type := list JSString -> JSString -> option R.

Definition orElse {R : Type} (a b : option R) : option R :=
  match a with
  | Some x => Some x
  | None => b
  end.

(** Greedy star: the longest run first, then shorter ones. *)
Fixpoint runStar {R : Type} (p : N -> bool) (caps : list JSString)
  (s : JSString) (k : cont R) : option R :=
  match s with
  | c :: s' =>
      if p c then orElse (runStar p caps s' k) (k caps s) else k caps s
  | [] => k caps s
  end.

Fixpoint runTimes {R : Type} (n : nat) (p : N -> bool) (caps : list JSString)
  (s : JSString) (k : cont R) : option R :=
  match n with
  | O => k caps s
  | S n' =>
      match s with
      | c :: s' => if p c then runTimes n' p caps s' k else None
      | [] => None
      end
  end.

(** The text consumed between input [s] and its suffix [s']. *)
Definition consumed (s s' : JSString) : JSString :=
  firstn (length s - length s') s.

Fixpoint run {R : Type} (r : regex) (caps : list JSString) (s : JSString)
  (k : cont R) : option R :=
  match r with
  | Empty => k caps s
  | Class p =>
      match s with
      | c :: s' => if p c then k caps s' else None
      | [] => None
      end
  | Cat r1 r2 => run r1 caps s (fun caps' s' => run r2 caps' s' k)
  | Alt r1 r2 => orElse (run r1 caps s k) (run r2 caps s k)
  | Star p => runStar p caps s k
  | Times n p => runTimes n p caps s k
  | Group r1 => run r1 caps s (fun caps' s' => k (caps' ++ [consumed s s']) s')
  end.

(** A match of the whole of [s], as between the anchors [^] and [$]. *)
Definition matchWhole (r : regex) (s : JSString) : option (list JSString) :=
  run r [] s (fun caps s' => match s' with [] => Some caps | _ => None end).

(** A match anchored at the head of [s]: the matched text and the captures. *)
Definition matchAt (r : regex) (s : JSString)
  : option (JSString * list JSString) :=
  run r [] s (fun caps s' => Some (consumed s s', caps)).

(** [r.exec(s)] without the [g] flag: the leftmost match; the result is the
    text before the match, the matched text and the captures. *)
Fixpoint execFrom (r : regex) (before s : JSString)
  : option (JSString * JSString * list JSString) :=
  match matchAt r s with
  | Some (m, caps) => Some (before, m, caps)
  | None =>
      match s with
      | [] => None
      | c :: s' => execFrom r (before ++ [c]) s'
      end
  end.

Definition exec (r : regex) (s : JSString) := execFrom r [] s.

(** [r.test(s)]. *)
Definition test (r : regex) (s : JSString) : bool :=
  match exec r s with
  | Some _ => true
  | None => false
  end.

(** [s.match(r)] with the [g] flag: every match, left to right, each search
    resuming where the previous match ended (one unit further after an
    empty match); [skip] counts the units still covered by the last match. *)
Fixpoint matchAllFrom (r : regex) (skip : nat) (s : JSString)
  : list JSString :=
  match s with
  | [] =>
      match skip, matchAt r [] with
      | O, Some (m, _) => [m]
      | _, _ => []
      end
  | _ :: s' =>
      match skip with
      | S n => matchAllFrom r n s'
      | O =>
          match matchAt r s with
          | Some (m, _) => m :: matchAllFrom r (length m - 1) s'
          | None => matchAllFrom r 0 s'
          end
      end
  end.

(** [null] when there is no match at all. *)
Definition matchAll (r : regex) (s : JSString) : option (list JSString) :=
  match matchAllFrom r 0 s with
  | [] => None
  | l => Some l
  end.

(** [s.replace(r, "")] without the [g] flag: the leftmost match is cut. *)
Definition replaceFirstWithEmpty (r : regex) (s : JSString) : JSString :=
  match exec r s with
  | Some (before, m, _) => before ++ skipn (length before + length m) s
  | None => s
  end.

(** *** Classes *)

Definition unit_of (a : ascii) : N := N_of_ascii a.

Definition char (a : ascii) (c : N) : bool := N.eqb c (unit_of a).

Definition inRange (lo hi : ascii) (c : N) : bool :=
  (unit_of lo <=? c)%N && (c <=? unit_of hi)%N.

(** [\d] *)
Definition digit (c : N) : bool := inRange "0" "9" c.

(** [[a-fA-F0-9]] *)
Definition hexDigit (c : N) : bool :=
  inRange "a" "f" c || inRange "A" "F" c || inRange "0" "9" c.

(** [\s]: WhiteSpace and LineTerminator of ECMAScript. *)
Definition space (c : N) : bool :=
  ((9 <=? c) && (c <=? 13) || (c =? 32) || (c =? 160) || (c =? 5760)
   || (8192 <=? c) && (c <=? 8202) || (c =? 8232) || (c =? 8233)
   || (c =? 8239) || (c =? 8287) || (c =? 12288) || (c =? 65279))%N.

(** A literal character under the [i] flag (no [u] flag): a code unit
    matches when it canonicalizes to the same unit; for an ASCII letter
    those are its two cases, for any other ASCII character itself. *)
Definition isIgnoreCase (a : ascii) (c : N) : bool :=
  N.eqb (asciiLowerUnit c) (asciiLowerUnit (unit_of a)).

Fixpoint literalWith (f : ascii -> N -> bool) (s : string) : list regex :=
  match s with
  | EmptyString => []
  | String a rest => Class (f a) :: literalWith f rest
  end.

(** Concatenation of a sequence of patterns. *)
Definition sequence (rs : list regex) : regex := fold_right Cat Empty rs.

End RegExp.

Import RegExp.

(** ** Types ([types/index]) *)

Inductive TaskType : Type := transaction | contract | gas | parallel | general.

Inductive Complexity : Type := high | medium | low.

Definition Complexity_eqb (a b : Complexity) : bool :=
  match a, b with
  | high, high | medium, medium | low, low => true
  | _, _ => false
  end.

Definition TaskType_eqb (a b : TaskType) : bool :=
  match a, b with
  | transaction, transaction | contract, contract | gas, gas
  | parallel, parallel | general, general => true
  | _, _ => false
  end.

(** The four flags are booleans a call site may leave out (the descriptors
    built by [debugParallelExecution] and [analyzeGasPatterns] do): a flag
    that is left out reads as [undefined].  The two estimates are optional
    numbers. *)
Record DebugTask : Type := {
  type : TaskType;
  complexity : Complexity;
  data : JSString;
  userContext : option JSString;
  requiresDeepAnalysis : option bool;
  requiresCodeExecution : option bool;
  isSimpleQuery : option bool;
  isStatusCheck : option bool;
  estimatedSearches : option float;
  estimatedTokens : option float
}.

Record CostEstimate : Type := {
  searchCost : float;
  tokenCost : float;
  total : float
}.

(** [ModelType]: the two model identifiers; [selectModel] returns one of
    them and [calculateTokenCost] compares its argument with [OPUS_4]. *)
Inductive ModelType : Type := OPUS_4 | SONNET_4.

Definition ModelType_id (m : ModelType) : JSString :=
  match m with
  | OPUS_4 => lit "claude-opus-4-20250514"
  | SONNET_4 => lit "claude-sonnet-4-20250514"
  end.

Definition ModelType_eqb (a b : ModelType) : bool :=
  match a, b with
  | OPUS_4, OPUS_4 | SONNET_4, SONNET_4 => true
  | _, _ => false
  end.

(** ** [ModelSelector] ([src/core/model-selector.ts]) *)

Module ModelSelector.

Definition selectModel (task : DebugTask) : ModelType :=
  if truthy (requiresDeepAnalysis task) || truthy (requiresCodeExecution task)
     || Complexity_eqb (complexity task) high
  then OPUS_4
  else if truthy (isSimpleQuery task) || truthy (isStatusCheck task)
          || Complexity_eqb (complexity task) low
  then SONNET_4
  else SONNET_4.

Definition calculateTokenCost (tokens : float) (model : ModelType) : float :=
  let costPerKToken :=
    if ModelType_eqb model OPUS_4 then 0.075%float else 0.015%float in
  ((tokens / 1000) * costPerKToken)%float.

Definition estimateCost (task : DebugTask) : CostEstimate :=
  let searches := orNumber (estimatedSearches task) 0%float in
  let tokens := orNumber (estimatedTokens task) 1000%float in
  let model := selectModel task in
  let searchCost := (searches * 0.01)%float in
  let tokenCost := calculateTokenCost tokens model in
  {| searchCost := searchCost;
     tokenCost := tokenCost;
     total := (searchCost + tokenCost)%float |}.

End ModelSelector.

(** ** Messages and reports ([types/index]) *)

Module Citation.
Record t : Type := {
  url : JSString;
  title : JSString;
  cited_text : option JSString
}.
End Citation.

(** One element of [AnthropicMessage.content]; further keys of a block are
    never read by the functions below. *)
Module ContentBlock.
Record t : Type := {
  type : JSString;
  text : option JSString;
  citations : option (list Citation.t)
}.
End ContentBlock.

(** [codeOutput] is not read by report assembly and is left out. *)
Module AnthropicMessage.
Record t : Type := {
  content : list ContentBlock.t;
  model : JSString;
  server_tool_use : option (list JSString);
  citations : option (list Citation.t)
}.
End AnthropicMessage.

Module DebugReport.
Record t : Type := {
  analysis : list ContentBlock.t;
  sources : list Citation.t;
  model : JSString;
  toolsUsed : list JSString;
  rootCause : option JSString;
  suggestions : option (list JSString);
  citations : list Citation.t
}.
End DebugReport.

(** ** Further built-ins of the host *)

Module JSBuiltins.

(** [ToBoolean] on an optional string: [undefined] and the empty string are
    falsy. *)
Definition truthyString (s : option JSString) : bool :=
  match s with
  | Some (_ :: _) => true
  | _ => false
  end.

(** [s.split(sep)] for a separator of one code unit: the pieces between the
    separators, at least one piece. *)
Fixpoint split (sep : N) (s : JSString) : list JSString :=
  match s with
  | [] => [[]]
  | c :: s' =>
      if N.eqb c sep then [] :: split sep s'
      else
        match split sep s' with
        | piece :: pieces => (c :: piece) :: pieces
        | [] => [[c]]
        end
  end.

(** [Math.min(a, b)]: [NaN] when an argument is [NaN], and [-0] below
    [+0]. *)
Definition mathMin (a b : float) : float :=
  if PrimFloat.is_nan a || PrimFloat.is_nan b then nan
  else if PrimFloat.ltb a b then a
  else if PrimFloat.ltb b a then b
  else if PrimFloat.is_zero a && PrimFloat.get_sign a then a
  else b.

End JSBuiltins.

Import JSBuiltins.

(** ** [SeiDebugAgent] *)

Module SeiDebugAgent.

(** [/0x[a-fA-F0-9]{64}/] *)
Definition hashPattern : regex :=
  Cat (Class (char "0")) (Cat (Class (char "x")) (Times 64 hexDigit)).

Section Classifier.

(** [String.prototype.toLowerCase], the Unicode case mapping of the host. *)
Variable toLowerCase : JSString -> JSString.

Definition classifyIssue (issue : JSString) (userContext : option JSString)
  : DebugTask :=
  let lowerIssue := toLowerCase issue in
  let hasTransactionHash := test hashPattern issue in
  let type :=
    if hasTransactionHash then transaction
    else if includes lowerIssue (lit "gas") then gas
    else if includes lowerIssue (lit "parallel")
            || includes lowerIssue (lit "state") then parallel
    else if includes lowerIssue (lit "contract") then contract
    else general in
  let complexity :=
    if includes lowerIssue (lit "revert") || includes lowerIssue (lit "failed")
       || includes lowerIssue (lit "error") then high
    else if includes lowerIssue (lit "how") || includes lowerIssue (lit "what")
            || includes lowerIssue (lit "status") then low
    else medium in
  {| type := type;
     complexity := complexity;
     data := issue;
     userContext := userContext;
     requiresDeepAnalysis :=
       Some (Complexity_eqb complexity high || TaskType_eqb type parallel);
     requiresCodeExecution :=
       Some (hasTransactionHash || TaskType_eqb type gas
             || includes lowerIssue (lit "analyze"));
     isSimpleQuery :=
       Some (Complexity_eqb complexity low && negb hasTransactionHash);
     isStatusCheck :=
       Some (includes lowerIssue (lit "status")
             || includes lowerIssue (lit "check"));
     estimatedSearches := Some (if hasTransactionHash then 3 else 2)%float;
     estimatedTokens :=
       Some (if Complexity_eqb complexity high then 3000 else 1500)%float |}.

End Classifier.

(** The text of a report: the [text] of the blocks of type ["text"], joined
    by one space. *)
Definition isTextBlock (c : ContentBlock.t) : bool :=
  eqb_string (ContentBlock.type c) (lit "text").

Definition textContent (content : list ContentBlock.t) : JSString :=
  join (lit " ") (map ContentBlock.text (filter isTextBlock content)).

Definition notDot (c : N) : bool := negb (char "." c).

Definition colonOrSpace (c : N) : bool := char ":" c || space c.

(** [/root cause[:\s]+([^.]+\.)/i] *)
Definition rootCausePattern : regex :=
  sequence
    (literalWith isIgnoreCase "root cause"
     ++ [Plus colonOrSpace; Group (Cat (Plus notDot) (Class (char ".")))]).

Definition extractRootCause (content : list ContentBlock.t)
  : option JSString :=
  match exec rootCausePattern (textContent content) with
  | Some (_, _, caps) => nth_error caps 0
  | None => None
  end.

(** The bullet [U+2022]. *)
Definition bullet (c : N) : bool := N.eqb c 8226.

Definition notDotNorNewline (c : N) : bool :=
  negb (char "." c) && negb (N.eqb c 10).

(** The list marker group: digits and a dot, or the bullet, or an
    asterisk. *)
Definition marker : regex :=
  Group (Alt (Cat (Plus digit) (Class (char ".")))
             (Alt (Class bullet) (Class (char "*")))).

(** The pattern of a suggestion (flag [g]): the marker group, then [\s*],
    then the group [([^.\n]+\.)]. *)
Definition suggestionPattern : regex :=
  Cat marker
    (Cat (Star space) (Group (Cat (Plus notDotNorNewline) (Class (char "."))))).

(** The pattern cut from each suggestion: the marker group, then [\s*]. *)
Definition markerPattern : regex := Cat marker (Star space).

Definition extractSuggestions (content : list ContentBlock.t)
  : option (list JSString) :=
  match matchAll suggestionPattern (textContent content) with
  | Some suggestions =>
      Some (map (replaceFirstWithEmpty markerPattern) suggestions)
  | None => None
  end.

(** [m?.citations || []] and [m?.server_tool_use || []]. *)
Definition citationsOf (m : option AnthropicMessage.t) : list Citation.t :=
  match m with
  | Some msg => orEmpty (AnthropicMessage.citations msg)
  | None => []
  end.

Definition toolsOf (m : option AnthropicMessage.t) : list JSString :=
  match m with
  | Some msg => orEmpty (AnthropicMessage.server_tool_use msg)
  | None => []
  end.

Definition formatDebugReport (report : AnthropicMessage.t)
  (searchResults analysis : option AnthropicMessage.t) : DebugReport.t :=
  let allCitations :=
    orEmpty (AnthropicMessage.citations report)
    ++ citationsOf searchResults ++ citationsOf analysis in
  let toolsUsed :=
    orEmpty (AnthropicMessage.server_tool_use report)
    ++ toolsOf searchResults ++ toolsOf analysis in
  {| DebugReport.analysis := AnthropicMessage.content report;
     DebugReport.sources := allCitations;
     DebugReport.model := AnthropicMessage.model report;
     DebugReport.toolsUsed := unique toolsUsed;
     DebugReport.citations := allCitations;
     DebugReport.rootCause :=
       extractRootCause (AnthropicMessage.content report);
     DebugReport.suggestions :=
       extractSuggestions (AnthropicMessage.content report) |}.

(** The descriptors the other entry points build by hand: the flags they
    leave out are absent. *)
Definition parallelExecutionTask (txHash : JSString)
  (userContext : option JSString) : DebugTask :=
  {| type := parallel;
     complexity := high;
     data := txHash;
     userContext := userContext;
     requiresDeepAnalysis := Some true;
     requiresCodeExecution := Some true;
     isSimpleQuery := None;
     isStatusCheck := None;
     estimatedSearches := None;
     estimatedTokens := None |}.

Definition gasPatternsTask (logs : JSString) : DebugTask :=
  {| type := gas;
     complexity := medium;
     data := logs;
     userContext := None;
     requiresDeepAnalysis := None;
     requiresCodeExecution := Some true;
     isSimpleQuery := None;
     isStatusCheck := None;
     estimatedSearches := None;
     estimatedTokens := None |}.

End SeiDebugAgent.

(** ** [SeiDebugCommands] *)

Module SeiDebugCommands.

Import SeiDebugAgent.

(** [/^0x[a-fA-F0-9]{64}$/.test(hash)], the check of the command layer. *)
Definition isValidTxHash (hash : JSString) : bool :=
  match matchWhole hashPattern hash with
  | Some _ => true
  | None => false
  end.

(** A command either throws or hands one request to the agent. *)
Inductive AgentCall : Type :=
| Debug (issue : JSString) (userContext : option JSString)
| DebugParallelExecution (txHash : JSString) (userContext : option JSString)
| AnalyzeGasPatterns (logs : JSString).

Definition invalidHashFormat : JSString :=
  lit "Invalid transaction hash format".

(** The tail [userContext ? ` - ${userContext}` : ""] of a template. *)
Definition contextSuffix (userContext : option JSString) : JSString :=
  if truthyString userContext then lit " - " ++ orEmpty userContext else [].

Definition debugTransaction (txHash : JSString)
  (userContext : option JSString) : JSString + AgentCall :=
  if negb (isValidTxHash txHash) then inl invalidHashFormat
  else
    inr (Debug (lit "Debug transaction " ++ txHash
                ++ contextSuffix userContext) userContext).

Definition debugParallelExecution (txHash : JSString)
  (userContext : option JSString) : JSString + AgentCall :=
  if negb (isValidTxHash txHash) then inl invalidHashFormat
  else inr (DebugParallelExecution txHash userContext).

Definition debugContractDeployment (data : JSString)
  (userContext : option JSString) : JSString + AgentCall :=
  inr (Debug (lit "Debug contract deployment: " ++ data) userContext).

Definition debugGeneralIssue (issue : JSString)
  (userContext : option JSString) : JSString + AgentCall :=
  inr (Debug issue userContext).

(** The two commands below are modelled with the agent they await.  An
    awaited method of the agent either resolves with a report or rejects:
    [debug] logs and rethrows whatever its provider calls throw
    (anthropic-client.ts:540-543), [analyzeGasPatterns] has no handler at
    all.  The command has no handler either, so the outcome of the awaited
    call, a rejection included, is the outcome of the command. *)
Section AwaitedAgent.

Variables Thrown Report : Type.
Variable agent : AgentCall -> Thrown + Report.

Definition debugGasIssues (dataOrTxHash : JSString)
  (userContext : option JSString) : Thrown + Report :=
  if isValidTxHash dataOrTxHash then
    agent (Debug (lit "Analyze gas usage for transaction " ++ dataOrTxHash)
             userContext)
  else agent (AnalyzeGasPatterns dataOrTxHash).

Definition analyzePerformance (data : JSString)
  (userContext : option JSString) : Thrown + Report :=
  agent
    (Debug
       (lit "Analyze Sei EVM performance: " ++ data
        ++ lit ". Focus on parallel execution efficiency and block timing.")
       userContext).

End AwaitedAgent.

Arguments debugGasIssues {Thrown Report} agent dataOrTxHash userContext.
Arguments analyzePerformance {Thrown Report} agent data userContext.

(** The descriptor the agent builds first for a request: [debug] classifies
    the issue, the two other entry points build theirs by hand. *)
Definition agentTask (toLowerCase : JSString -> JSString) (call : AgentCall)
  : DebugTask :=
  match call with
  | Debug issue userContext => classifyIssue toLowerCase issue userContext
  | DebugParallelExecution txHash userContext =>
      parallelExecutionTask txHash userContext
  | AnalyzeGasPatterns logs => gasPatternsTask logs
  end.

End SeiDebugCommands.

(** ** [AnthropicClient]: what it does with a request and with an answer *)

Module RawMessage.
(** The answer of the provider, as [formatMessage] reads it: the blocks,
    the model and the flag [usage?.tool_use]. *)
Record t : Type := {
  content : list ContentBlock.t;
  model : JSString;
  usage : option (option bool)
}.
End RawMessage.

Module AnthropicClient.

Import SeiDebugAgent.

(** [message.usage?.tool_use]. *)
Definition usedTools (message : RawMessage.t) : option bool :=
  match RawMessage.usage message with
  | Some flag => flag
  | None => None
  end.

(** The filter of [formatMessage]: [c.type === "text" && c.citations]; an
    array, even an empty one, is truthy. *)
Definition hasCitations (c : ContentBlock.t) : bool :=
  isTextBlock c &&
  match ContentBlock.citations c with
  | Some _ => true
  | None => false
  end.

Definition formatMessage (message : RawMessage.t) : AnthropicMessage.t :=
  let citations :=
    flat_map (fun c => orEmpty (ContentBlock.citations c))
      (filter hasCitations (RawMessage.content message)) in
  {| AnthropicMessage.content := RawMessage.content message;
     AnthropicMessage.model := RawMessage.model message;
     AnthropicMessage.server_tool_use :=
       Some (if truthy (usedTools message)
             then [lit "web_search"; lit "code_execution"]
             else []);
     AnthropicMessage.citations := Some citations |}.

(** The [max_uses] that [searchSeiDocs] gives the web search tool:
    [Math.min(task.estimatedSearches || 3, 5)]. *)
Definition searchMaxUses (task : DebugTask) : float :=
  mathMin (orNumber (estimatedSearches task) 3%float) 5%float.

End AnthropicClient.

(** ** [CliHelpers] ([src/utils/cli-helpers.ts]) *)

Module ParsedCommand.
(** The result of [parseCommand]; its optional [context] is never set. *)
Record t : Type := {
  command : JSString;
  data : JSString
}.
End ParsedCommand.

Module CliHelpers.

Import SeiDebugAgent.

Definition parseCommand (args : list JSString) : ParsedCommand.t :=
  match args with
  | [] =>
      {| ParsedCommand.command := lit "interactive";
         ParsedCommand.data := [] |}
  | command :: rest =>
      {| ParsedCommand.command := command;
         ParsedCommand.data := join (lit " ") (map Some rest) |}
  end.

(** [/^0x[a-fA-F0-9]{64}$/.test(hash)] *)
Definition validateTxHash (hash : JSString) : bool :=
  match matchWhole hashPattern hash with
  | Some _ => true
  | None => false
  end.

(** [text.match(/0x[a-fA-F0-9]{64}/)], then [match[0]] or [null]. *)
Definition extractTxHash (text : JSString) : option JSString :=
  match exec hashPattern text with
  | Some (_, m, _) => Some m
  | None => None
  end.

End CliHelpers.

(** ** The command line ([src/index.ts]) *)

Module Cli.

Import CliHelpers.

(** The interactive loop parses a line with [input.split(" ")]. *)
Definition parseLine (input : JSString) : ParsedCommand.t :=
  parseCommand (split 32 input).

(** What [handleTransaction] and [handleParallelExecution] make of their
    argument before they call the command: the argument itself when it is a
    valid hash, else the first hash found in it, else nothing (an error is
    logged and the handler returns). *)
Definition resolveTxHash (txHash : JSString) : option JSString :=
  if negb (validateTxHash txHash) then
    match extractTxHash txHash with
    | Some extractedHash => Some extractedHash
    | None => None
    end
  else Some txHash.

End Cli.

Import ModelSelector SeiDebugAgent SeiDebugCommands.


Import ModelSelector SeiDebugAgent.

(** ** Vocabulary of the statements *)

(** Rule 1 of the decision table: a deep analysis, a code execution or a
    high complexity. *)
Definition highTierRule (t : DebugTask) : Prop :=
  truthy (requiresDeepAnalysis t) = true
  \/ truthy (requiresCodeExecution t) = true
  \/ complexity t = high.

(** Rule 2 of the decision table: a simple query, a status check or a low
    complexity. *)
Definition standardTierRule (t : DebugTask) : Prop :=
  truthy (isSimpleQuery t) = true
  \/ truthy (isStatusCheck t) = true
  \/ complexity t = low.

(** An optional count that is not negative when it is present, as the
    data model has [estimatedSearches] and [estimatedTokens]. *)
Definition nonnegNumber (x : option float) : Prop :=
  forall v, x = Some v -> (0 <=? v)%float = true.

(** Binary64 values that are not [NaN] and not below zero, and the finite
    ones above zero. *)
Definition nonnegSF (f : spec_float) : Prop :=
  match f with
  | S754_zero _ => True
  | S754_infinity s | S754_finite s _ _ => s = false
  | S754_nan => False
  end.

Definition positiveSF (f : spec_float) : Prop :=
  match f with
  | S754_finite s _ _ => s = false
  | _ => False
  end.

(** The rate per thousand tokens of a model. *)
Definition costPerKToken (m : ModelType) : float :=
  match m with
  | OPUS_4 => 0.075%float
  | SONNET_4 => 0.015%float
  end.

(** A hand-built descriptor: the helper [createTask] of the tests. *)
Definition createTask (searches tokens : option float) : DebugTask :=
  {| type := general;
     complexity := medium;
     data := lit "test";
     userContext := None;
     requiresDeepAnalysis := Some false;
     requiresCodeExecution := Some false;
     isSimpleQuery := Some false;
     isStatusCheck := Some false;
     estimatedSearches := searches;
     estimatedTokens := tokens |}.

(** ** Vocabulary of the further properties *)

Import AnthropicClient CliHelpers Cli.

(** A text without a space. *)
Definition noSpace (s : JSString) : bool :=
  forallb (fun u => negb (N.eqb u 32)) s.

(** The citations carried by the text blocks of an answer, in order. *)
Definition textCitations (content : list ContentBlock.t) : list Citation.t :=
  flat_map (fun c => if isTextBlock c
                     then orEmpty (ContentBlock.citations c) else [])
    content.

(** The same for an answer that may be missing. *)
Definition rawTextCitations (m : option RawMessage.t) : list Citation.t :=
  match m with
  | Some msg => textCitations (RawMessage.content msg)
  | None => []
  end.

(** Whether an answer, when there is one, reports the use of tools. *)
Definition rawUsedTools (m : option RawMessage.t) : bool :=
  match m with
  | Some msg => truthy (usedTools msg)
  | None => false
  end.

(** Patterns without a capturing group. *)
Fixpoint groupFree (r : regex) : bool :=
  match r with
  | Group _ => false
  | Cat r1 r2 | Alt r1 r2 => groupFree r1 && groupFree r2
  | _ => true
  end.

(** The text left once the white space at its head is dropped. *)
Fixpoint dropSpaces (s : JSString) : JSString :=
  match s with
  | c :: s' => if space c then dropSpaces s' else s
  | [] => []
  end.

(** The three shapes of a list marker. *)
Definition isMarker (mk : JSString) : Prop :=
  (exists d ds, mk = d :: ds ++ lit "." /\ digit d = true
                /\ forallb digit ds = true)
  \/ mk = [8226%N] \/ mk = lit "*".

(** A suggestion as it is reported: a text without a dot or a line break,
    not opening with white space, and then its dot. *)
Definition isSuggestion (sg : JSString) : Prop :=
  exists body,
    sg = body ++ lit "."
    /\ forallb notDotNorNewline body = true
    /\ match body with
       | c :: _ => space c = false
       | [] => True
       end.

(** Binary64 values with a plus sign: [+0], the finite ones above zero and
    [+Infinity]. *)
Definition plusSF (f : spec_float) : Prop :=
  match f with
  | S754_zero s | S754_infinity s | S754_finite s _ _ => s = false
  | S754_nan => False
  end.

(** No searches: the field is absent or falsy. *)
Definition noSearches (t : DebugTask) : Prop :=
  estimatedSearches t = None
  \/ exists v, estimatedSearches t = Some v /\ truthyNumber v = false.

(** * Model selection *)

Lemma selectModel_OPUS_4_iff (t : DebugTask) :
  selectModel t = OPUS_4 <-> highTierRule t.
Proof.
  unfold selectModel, highTierRule.
  destruct (truthy (isSimpleQuery t) || truthy (isStatusCheck t)
            || Complexity_eqb (complexity t) low);
    destruct (requiresDeepAnalysis t) as [[|]|];
    destruct (requiresCodeExecution t) as [[|]|];
    destruct (complexity t); simpl; split; intros H;
    try reflexivity; try discriminate; auto;
    destruct H as [H | [H | H]]; discriminate.
Qed.

(** C1: [selectModel] answers the high tier exactly when rule 1 holds and
    the standard tier in every other case, whether rule 2 holds or not;
    when both rules hold, rule 1 wins. *)
Theorem selectModel_decision (t : DebugTask) :
  (selectModel t = OPUS_4 <-> highTierRule t)
  /\ (selectModel t = SONNET_4 <-> ~ highTierRule t)
  /\ (highTierRule t -> standardTierRule t -> selectModel t = OPUS_4).
Proof.
  pose proof (selectModel_OPUS_4_iff t) as H.
  split; [exact H | split].
  - split.
    + intros Hs Hr. apply H in Hr. congruence.
    + intros Hn. destruct (selectModel t) eqn:E; [ | reflexivity].
      exfalso. apply Hn, H. reflexivity.
  - intros Hr _. apply H, Hr.
Qed.

(** * Cost estimate *)

(** ** Sums of non-negative binary64 numbers are numbers *)

Lemma shr_1_nonneg mrs : (0 <= shr_m mrs)%Z -> (0 <= shr_m (shr_1 mrs))%Z.
Proof.
  destruct mrs as [m r s]. destruct m as [|[p|p|]|p]; simpl; lia.
Qed.

Lemma iter_pos_shr_1_nonneg p :
  forall mrs, (0 <= shr_m mrs)%Z -> (0 <= shr_m (SpecFloat.iter_pos shr_1 p mrs))%Z.
Proof.
  induction p as [p IH|p IH|]; intros mrs H; simpl.
  - apply IH, IH, shr_1_nonneg, H.
  - apply IH, IH, H.
  - apply shr_1_nonneg, H.
Qed.

Lemma shr_fexp_nonneg m e l :
  (0 <= m)%Z -> (0 <= shr_m (fst (shr_fexp prec emax m e l)))%Z.
Proof.
  intros H. unfold shr_fexp, shr.
  assert (Hm : (0 <= shr_m (shr_record_of_loc m l))%Z)
    by (destruct l as [|[]]; exact H).
  destruct (_ - e)%Z; simpl; auto using iter_pos_shr_1_nonneg.
Qed.

Lemma round_nearest_even_nonneg m l :
  (0 <= m)%Z -> (0 <= round_nearest_even m l)%Z.
Proof.
  intros H. destruct l as [|[]]; simpl; try lia.
  destruct (Z.even m); lia.
Qed.

Lemma binary_round_aux_nonneg mx ex lx :
  (0 <= mx)%Z -> nonnegSF (binary_round_aux prec emax false mx ex lx).
Proof.
  intros H. unfold binary_round_aux.
  pose proof (shr_fexp_nonneg mx ex lx H) as H1.
  destruct (shr_fexp prec emax mx ex lx) as [mrs' e']. simpl in H1.
  pose proof (shr_fexp_nonneg _ e' loc_Exact
                (round_nearest_even_nonneg _ (loc_of_shr_record mrs') H1)) as H2.
  destruct (shr_fexp prec emax _ e' loc_Exact) as [mrs'' e'']. simpl in H2.
  destruct (shr_m mrs'') as [|m|m]; simpl; auto; try lia.
  destruct (e'' <=? _)%Z; reflexivity.
Qed.

Lemma SFmul_nonneg x y :
  nonnegSF x -> positiveSF y -> nonnegSF (SF64mul x y).
Proof.
  destruct x as [[]|[]| |[] mx ex], y as [[]|[]| |[] my ey]; simpl;
    intros Hx Hy; try tauto; try discriminate; try reflexivity.
  apply binary_round_aux_nonneg. lia.
Qed.

Lemma SFdiv_nonneg x y :
  nonnegSF x -> positiveSF y -> nonnegSF (SF64div x y).
Proof.
  destruct x as [[]|[]| |[] mx ex], y as [[]|[]| |[] my ey]; simpl;
    intros Hx Hy; try tauto; try discriminate; try reflexivity.
  unfold SFdiv_core_binary.
  set (s := (_ - _ - _)%Z).
  set (m' := match s with Z0 => _ | Zpos _ => _ | Zneg _ => _ end).
  assert (Hm : (0 <= m')%Z).
  { subst m'. destruct s; try lia. apply Z.shiftl_nonneg. lia. }
  pose proof (Z_div_mod m' (Zpos my) ltac:(lia)) as Hd.
  destruct (Z.div_eucl m' (Z.pos my)) as [q r].
  apply binary_round_aux_nonneg. nia.
Qed.

Lemma SFadd_nonneg x y :
  nonnegSF x -> nonnegSF y -> nonnegSF (SF64add x y).
Proof.
  destruct x as [[]|[]| |[] mx ex], y as [[]|[]| |[] my ey]; simpl;
    intros Hx Hy; try tauto; try discriminate; try reflexivity.
  unfold binary_normalize, binary_round.
  destruct (shl_align _ _ _) as [mz ez].
  apply binary_round_aux_nonneg. lia.
Qed.

Lemma nonnegSF_eqb x : nonnegSF (Prim2SF x) -> PrimFloat.is_nan x = false.
Proof.
  intros H. unfold PrimFloat.is_nan. rewrite FloatAxioms.eqb_spec. unfold SFeqb.
  destruct (Prim2SF x) as [s|s| |s m e]; simpl in *; try tauto; subst; auto.
  rewrite Z.compare_refl, Pos.compare_cont_refl. reflexivity.
Qed.

Lemma leb_zero_nonneg x : (0 <=? x)%float = true -> nonnegSF (Prim2SF x).
Proof.
  rewrite leb_spec. change (Prim2SF 0) with (S754_zero false).
  unfold SFleb. destruct (Prim2SF x) as [[]|[]| |[] m e]; simpl; auto;
    discriminate.
Qed.

Lemma orNumber_nonneg (x : option float) (d : float) :
  nonnegNumber x -> nonnegSF (Prim2SF d) -> nonnegSF (Prim2SF (orNumber x d)).
Proof.
  intros Hx Hd. unfold orNumber. destruct x as [v|]; [ | exact Hd].
  destruct (truthyNumber v); [ | exact Hd].
  apply leb_zero_nonneg, Hx. reflexivity.
Qed.

Lemma estimateCost_total_is_number (t : DebugTask) :
  nonnegNumber (estimatedSearches t) -> nonnegNumber (estimatedTokens t) ->
  PrimFloat.is_nan (total (estimateCost t)) = false.
Proof.
  intros Hs Ht. apply nonnegSF_eqb. unfold estimateCost. simpl.
  rewrite add_spec. apply SFadd_nonneg.
  - rewrite mul_spec. apply SFmul_nonneg.
    + apply orNumber_nonneg; [exact Hs | exact I].
    + vm_compute. reflexivity.
  - unfold calculateTokenCost. rewrite mul_spec. apply SFmul_nonneg.
    + rewrite div_spec. apply SFdiv_nonneg.
      * apply orNumber_nonneg; [exact Ht | vm_compute; reflexivity].
      * vm_compute. reflexivity.
    + destruct (selectModel t); vm_compute; reflexivity.
Qed.

(** C3: the [total] of an estimate is the binary64 sum of its [searchCost]
    and its [tokenCost].  Comparing the two with [===] answers [true] unless
    the sum is [NaN], and it is a number whenever the two estimated counts
    are absent or not negative. *)
Theorem estimateCost_total_exact (t : DebugTask) :
  total (estimateCost t)
  = (searchCost (estimateCost t) + tokenCost (estimateCost t))%float
  /\ PrimFloat.eqb (total (estimateCost t))
       (searchCost (estimateCost t) + tokenCost (estimateCost t))%float
     = negb (PrimFloat.is_nan (total (estimateCost t)))
  /\ (nonnegNumber (estimatedSearches t) ->
      nonnegNumber (estimatedTokens t) ->
      PrimFloat.eqb (total (estimateCost t))
        (searchCost (estimateCost t) + tokenCost (estimateCost t))%float
      = true).
Proof.
  assert (H : PrimFloat.eqb (total (estimateCost t))
                (searchCost (estimateCost t) + tokenCost (estimateCost t))%float
              = negb (PrimFloat.is_nan (total (estimateCost t)))).
  { unfold PrimFloat.is_nan. simpl.
    destruct (PrimFloat.eqb _ _); reflexivity. }
  split; [reflexivity | split; [exact H | ]].
  intros Hs Ht. rewrite H, estimateCost_total_is_number by assumption.
  reflexivity.
Qed.

(** With opposite infinities among the inputs the sum is [NaN], which no
    [===] equals. *)
Example estimateCost_total_nan :
  PrimFloat.is_nan
    (total (estimateCost (createTask (Some neg_infinity) (Some infinity))))
  = true.
Proof.
  reflexivity.
Qed.

(** The falsy numbers are the two zeros and [NaN]. *)
Lemma truthyNumber_false (v : float) :
  truthyNumber v = false
  <-> v = 0%float \/ v = (-0)%float \/ v = nan.
Proof.
  unfold truthyNumber, PrimFloat.is_zero, PrimFloat.is_nan.
  rewrite negb_false_iff, orb_true_iff, negb_true_iff, !FloatAxioms.eqb_spec.
  change (Prim2SF PrimFloat.zero) with (S754_zero false).
  split.
  - intros [H | H]; rewrite <- (SF2Prim_Prim2SF v);
      destruct (Prim2SF v) as [[]|[]| |[] m e]; simpl in H;
      try discriminate; auto.
    + unfold SFeqb in H. simpl in H.
      rewrite Z.compare_refl, Pos.compare_cont_refl in H. discriminate.
    + unfold SFeqb in H. simpl in H.
      rewrite Z.compare_refl, Pos.compare_cont_refl in H. discriminate.
  - intros [-> | [-> | ->]]; vm_compute; auto.
Qed.

(** C4, as the code has it: [estimatedTokens || 1000] takes the field when
    it is present and truthy, and 1000 when it is absent, zero or [NaN].  A
    descriptor with [estimatedTokens = 0] is therefore charged for 1000
    tokens: its [tokenCost] is the rate of its model. *)
Theorem estimateCost_tokens_fallback (t : DebugTask) :
  (estimatedTokens t = None ->
     tokenCost (estimateCost t) = costPerKToken (selectModel t))
  /\ (forall v, estimatedTokens t = Some v -> truthyNumber v = true ->
        tokenCost (estimateCost t)
        = ((v / 1000) * costPerKToken (selectModel t))%float)
  /\ (forall v, estimatedTokens t = Some v -> truthyNumber v = false ->
        tokenCost (estimateCost t) = costPerKToken (selectModel t))
  /\ (forall v, truthyNumber v = false
                 <-> v = 0%float \/ v = (-0)%float \/ v = nan)
  /\ (estimatedTokens t = Some 0%float ->
        tokenCost (estimateCost t) = costPerKToken (selectModel t)
        /\ total (estimateCost t)
           = (searchCost (estimateCost t)
              + costPerKToken (selectModel t))%float).
Proof.
  assert (Hk : forall m, calculateTokenCost 1000 m = costPerKToken m)
    by (intros []; reflexivity).
  assert (Hv : forall v m, calculateTokenCost v m
                           = ((v / 1000) * costPerKToken m)%float)
    by (intros v []; reflexivity).
  unfold estimateCost; simpl.
  split; [ | split; [ | split; [ | split ] ] ].
  - intros H. rewrite H. simpl. apply Hk.
  - intros v H Hv'. rewrite H. simpl. rewrite Hv'. apply Hv.
  - intros v H Hv'. rewrite H. simpl. rewrite Hv'. apply Hk.
  - apply truthyNumber_false.
  - intros H. rewrite H. simpl. rewrite Hk. split; reflexivity.
Qed.

(** C4, the claim as worded fails: a hand-built descriptor whose
    [estimatedTokens] is 0 gets [tokenCost = 0.015], not 0, and its [total]
    differs from its [searchCost]. *)
Lemma estimateCost_zero_tokens_charged :
  estimatedTokens (createTask (Some 2%float) (Some 0%float)) = Some 0%float
  /\ tokenCost (estimateCost (createTask (Some 2%float) (Some 0%float)))
     = 0.015%float
  /\ PrimFloat.eqb
       (tokenCost (estimateCost (createTask (Some 2%float) (Some 0%float))))
       0 = false
  /\ searchCost (estimateCost (createTask (Some 2%float) (Some 0%float)))
     = 0.02%float
  /\ total (estimateCost (createTask (Some 2%float) (Some 0%float)))
     = 0.035%float
  /\ PrimFloat.eqb
       (total (estimateCost (createTask (Some 2%float) (Some 0%float))))
       (searchCost (estimateCost (createTask (Some 2%float) (Some 0%float))))
     = false.
Proof.
  repeat split; vm_compute; reflexivity.
Qed.

(** * The matcher on the transaction-hash pattern *)

Section MatcherFacts.

Context {R : Type}.

Lemma runTimes_all (n : nat) (p : N -> bool) (caps : list JSString)
  (h rest : JSString) (k : cont R) :
  length h = n -> forallb p h = true ->
  runTimes n p caps (h ++ rest) k = k caps rest.
Proof.
  revert h. induction n as [|n IH]; intros [|c h] Hl Hp;
    simpl in *; try discriminate; auto.
  apply andb_prop in Hp as [Hc Hh]. rewrite Hc. apply IH; auto.
Qed.

End MatcherFacts.

Lemma matchAt_hashPattern (h rest : JSString) :
  length h = 64 -> forallb hexDigit h = true ->
  matchAt hashPattern (lit "0x" ++ h ++ rest) <> None.
Proof.
  intros Hl Hp. unfold matchAt, hashPattern.
  change (lit "0x" ++ h ++ rest) with (48%N :: 120%N :: h ++ rest).
  cbn [run]. change (char "0" 48) with true. change (char "x" 120) with true.
  cbn iota. rewrite runTimes_all by assumption. discriminate.
Qed.

Lemma execFrom_found (r : regex) (s : JSString) :
  matchAt r s <> None ->
  forall pre before, execFrom r before (pre ++ s) <> None.
Proof.
  intros Hm. induction pre as [|c pre IH]; intros before.
  - simpl. destruct s; simpl;
      destruct (matchAt r _) as [[m caps]|]; congruence.
  - simpl. destruct (matchAt r (c :: pre ++ s)) as [[m caps]|].
    + discriminate.
    + apply IH.
Qed.

(** Any occurrence of [0x] followed by at least 64 hexadecimal digits makes
    the pattern match. *)
Lemma test_hashPattern_occurrence (pre h rest : JSString) :
  64 <= length h -> forallb hexDigit h = true ->
  test hashPattern (pre ++ lit "0x" ++ h ++ rest) = true.
Proof.
  intros Hl Hp. unfold test, exec.
  assert (Hs : h = firstn 64 h ++ skipn 64 h) by (symmetry; apply firstn_skipn).
  rewrite Hs, <- app_assoc.
  pose proof (execFrom_found hashPattern
                (lit "0x" ++ firstn 64 h ++ skipn 64 h ++ rest)) as Hf.
  destruct (execFrom hashPattern [] _) eqn:E; [reflexivity | ].
  exfalso. refine (Hf _ pre [] E).
  apply matchAt_hashPattern.
  - rewrite length_firstn. lia.
  - rewrite <- (firstn_skipn 64 h), forallb_app in Hp.
    apply andb_prop in Hp. tauto.
Qed.

(** * Classification *)

Section ClassifierFacts.

Variable toLowerCase : JSString -> JSString.

Lemma classifyIssue_of_hash (issue : JSString) (userContext : option JSString) :
  test hashPattern issue = true ->
  type (classifyIssue toLowerCase issue userContext) = transaction
  /\ requiresCodeExecution (classifyIssue toLowerCase issue userContext)
     = Some true
  /\ estimatedSearches (classifyIssue toLowerCase issue userContext)
     = Some 3%float.
Proof.
  intros H. unfold classifyIssue. rewrite H. simpl. auto.
Qed.

Lemma classifyIssue_transaction_hash (issue : JSString)
  (userContext : option JSString) :
  type (classifyIssue toLowerCase issue userContext) = transaction ->
  test hashPattern issue = true.
Proof.
  unfold classifyIssue; simpl.
  destruct (test hashPattern issue); [reflexivity | ].
  repeat match goal with
         | |- context [if ?b then _ else _] => destruct b
         end; discriminate.
Qed.

End ClassifierFacts.

(** C2: a text that contains [0x] and then 64 hexadecimal digits is
    classified as a transaction, with three estimated searches, whatever
    else stands before or after the hash and whatever the lower-casing
    does. *)
Theorem classifyIssue_hash_is_transaction
  (toLowerCase : JSString -> JSString) (issue : JSString)
  (userContext : option JSString) (pre digits rest : JSString) :
  issue = pre ++ lit "0x" ++ digits ++ rest ->
  length digits = 64 ->
  forallb hexDigit digits = true ->
  type (classifyIssue toLowerCase issue userContext) = transaction
  /\ estimatedSearches (classifyIssue toLowerCase issue userContext)
     = Some 3%float.
Proof.
  intros -> Hl Hp.
  destruct (classifyIssue_of_hash toLowerCase
              (pre ++ lit "0x" ++ digits ++ rest) userContext) as (Ht & _ & Hs).
  - apply test_hashPattern_occurrence; [lia | assumption].
  - split; assumption.
Qed.

(** C9: a descriptor the classifier labels a transaction requires code
    execution, and the selector gives it the high tier. *)
Theorem classified_transaction_high_tier
  (toLowerCase : JSString -> JSString) (issue : JSString)
  (userContext : option JSString) :
  type (classifyIssue toLowerCase issue userContext) = transaction ->
  requiresCodeExecution (classifyIssue toLowerCase issue userContext)
  = Some true
  /\ selectModel (classifyIssue toLowerCase issue userContext) = OPUS_4.
Proof.
  intros Ht. apply classifyIssue_transaction_hash in Ht.
  destruct (classifyIssue_of_hash toLowerCase issue userContext Ht)
    as (_ & Hc & _).
  split; [exact Hc | ].
  apply selectModel_OPUS_4_iff. right. left. rewrite Hc. reflexivity.
Qed.

(** C2 on a text that names gas, parallel execution, state, a contract and
    an error around its hash. *)
Lemma classifyIssue_hash_is_transaction_witness :
  type (classifyIssue asciiToLowerCase
          (lit "gas parallel state contract " ++ lit "0x"
           ++ repeat 97%N 64 ++ lit " error")
          None) = transaction
  /\ estimatedSearches
       (classifyIssue asciiToLowerCase
          (lit "gas parallel state contract " ++ lit "0x"
           ++ repeat 97%N 64 ++ lit " error")
          None) = Some 3%float.
Proof.
  apply (classifyIssue_hash_is_transaction asciiToLowerCase _ None
           (lit "gas parallel state contract ") (repeat 97%N 64)
           (lit " error"));
    reflexivity.
Defined.

(** C9 on a bare hash. *)
Lemma classified_transaction_high_tier_witness :
  requiresCodeExecution
    (classifyIssue asciiToLowerCase (lit "0x" ++ repeat 97%N 64) None)
  = Some true
  /\ selectModel
       (classifyIssue asciiToLowerCase (lit "0x" ++ repeat 97%N 64) None)
     = OPUS_4.
Proof.
  apply (classified_transaction_high_tier asciiToLowerCase
           (lit "0x" ++ repeat 97%N 64) None).
  reflexivity.
Defined.

(** C10: the hash pattern is not anchored and does not look at what follows
    its 64 digits, so [0x] followed by 65 or more hexadecimal digits is a
    transaction with three estimated searches as well. *)
Theorem classifyIssue_longer_hex_run_is_transaction
  (toLowerCase : JSString -> JSString) (issue : JSString)
  (userContext : option JSString) (pre digits rest : JSString) :
  issue = pre ++ lit "0x" ++ digits ++ rest ->
  65 <= length digits ->
  forallb hexDigit digits = true ->
  type (classifyIssue toLowerCase issue userContext) = transaction
  /\ estimatedSearches (classifyIssue toLowerCase issue userContext)
     = Some 3%float.
Proof.
  intros -> Hl Hp.
  destruct (classifyIssue_of_hash toLowerCase
              (pre ++ lit "0x" ++ digits ++ rest) userContext) as (Ht & _ & Hs).
  - apply test_hashPattern_occurrence; [lia | assumption].
  - split; assumption.
Qed.

(** The text [0x] with 65 digits [a] is no valid hash for the command layer,
    which wants exactly 64 digits between the anchors. *)
Lemma isValidTxHash_exactly_64 :
  isValidTxHash (lit "0x" ++ repeat 97%N 64) = true
  /\ isValidTxHash (lit "0x" ++ repeat 97%N 65) = false
  /\ test hashPattern (lit "0x" ++ repeat 97%N 65) = true.
Proof.
  repeat split.
Qed.

(** C10 on [0x] followed by 65 digits [a]. *)
Lemma classifyIssue_longer_hex_run_is_transaction_witness :
  65 <= length (repeat 97%N 65)
  /\ type (classifyIssue asciiToLowerCase
             ([] ++ lit "0x" ++ repeat 97%N 65 ++ []) None) = transaction
  /\ estimatedSearches
       (classifyIssue asciiToLowerCase
          ([] ++ lit "0x" ++ repeat 97%N 65 ++ []) None) = Some 3%float.
Proof.
  split.
  - simpl. lia.
  - apply (classifyIssue_longer_hex_run_is_transaction asciiToLowerCase _ None
             [] (repeat 97%N 65) []).
    + reflexivity.
    + simpl. lia.
    + reflexivity.
Defined.

(** * The scenario "transaction failed with revert" *)

(** C5, as the code computes it: the text is a general issue of high
    complexity that needs a deep analysis and no code execution, with 2
    searches and 3000 tokens; the tier is the high one; the search cost is
    0.02; the token cost is the binary64 product [3 * 0.075], which is
    0.22499999999999998, the number just below 0.225; the total is
    0.24499999999999997. *)
Theorem scenario_failed_with_revert
  (toLowerCase : JSString -> JSString) (userContext : option JSString) :
  toLowerCase (lit "transaction failed with revert")
  = lit "transaction failed with revert" ->
  let task :=
    classifyIssue toLowerCase (lit "transaction failed with revert")
      userContext in
  type task = general
  /\ complexity task = high
  /\ requiresDeepAnalysis task = Some true
  /\ requiresCodeExecution task = Some false
  /\ estimatedSearches task = Some 2%float
  /\ estimatedTokens task = Some 3000%float
  /\ selectModel task = OPUS_4
  /\ searchCost (estimateCost task) = 0.02%float
  /\ tokenCost (estimateCost task) = 0.22499999999999998%float
  /\ PrimFloat.next_up (tokenCost (estimateCost task)) = 0.225%float
  /\ total (estimateCost task) = 0.24499999999999997%float.
Proof.
  intros Hlow task. subst task. unfold classifyIssue. rewrite Hlow.
  vm_compute. repeat split.
Qed.

(** C5 with the lower-casing of ASCII text. *)
Lemma scenario_failed_with_revert_witness :
  asciiToLowerCase (lit "transaction failed with revert")
  = lit "transaction failed with revert"
  /\ tokenCost
       (estimateCost
          (classifyIssue asciiToLowerCase
             (lit "transaction failed with revert") None))
     = 0.22499999999999998%float.
Proof.
  split.
  - reflexivity.
  - apply (scenario_failed_with_revert asciiToLowerCase None). reflexivity.
Defined.

(** C5, the claim as worded fails on the two decimal figures: the token
    cost is not the number 0.225 and the total is not the number 0.245. *)
Lemma scenario_failed_with_revert_not_decimal :
  PrimFloat.eqb
    (tokenCost
       (estimateCost
          (classifyIssue asciiToLowerCase
             (lit "transaction failed with revert") None)))
    0.225 = false
  /\ PrimFloat.eqb
       (total
          (estimateCost
             (classifyIssue asciiToLowerCase
                (lit "transaction failed with revert") None)))
       0.245 = false
  /\ tokenCost
       (estimateCost
          (classifyIssue asciiToLowerCase
             (lit "transaction failed with revert") None))
     <> 0.225%float
  /\ total
       (estimateCost
          (classifyIssue asciiToLowerCase
             (lit "transaction failed with revert") None))
     <> 0.245%float.
Proof.
  split; [ | split; [ | split ] ].
  - vm_compute. reflexivity.
  - vm_compute. reflexivity.
  - intros H. apply (f_equal (fun x => PrimFloat.eqb x 0.225)) in H.
    vm_compute in H. discriminate.
  - intros H. apply (f_equal (fun x => PrimFloat.eqb x 0.245)) in H.
    vm_compute in H. discriminate.
Qed.

(** * Report assembly *)

Lemma eqb_string_true (a b : JSString) : eqb_string a b = true <-> a = b.
Proof.
  unfold eqb_string. destruct (list_eq_dec N.eq_dec a b); split;
    congruence.
Qed.







(** Two responses that both report [web_search] and [code_execution] and
    both cite the same page. *)
Example formatDebugReport_two_responses (c : Citation.t) (m : JSString) :
  let response :=
    {| AnthropicMessage.content := [];
       AnthropicMessage.model := m;
       AnthropicMessage.server_tool_use :=
         Some [lit "web_search"; lit "code_execution"];
       AnthropicMessage.citations := Some [c] |} in
  DebugReport.toolsUsed (formatDebugReport response (Some response) None)
  = [lit "web_search"; lit "code_execution"]
  /\ DebugReport.citations (formatDebugReport response (Some response) None)
     = [c; c].
Proof.
  split; reflexivity.
Qed.

(** C8: [formatDebugReport] is a total function, and a response without
    any text block has an empty text, in which neither pattern matches:
    [rootCause] and [suggestions] are both absent, while the other fields
    are filled as usual. *)
Theorem formatDebugReport_without_text
  (report : AnthropicMessage.t)
  (searchResults analysis : option AnthropicMessage.t) :
  filter isTextBlock (AnthropicMessage.content report) = [] ->
  DebugReport.rootCause (formatDebugReport report searchResults analysis)
  = None
  /\ DebugReport.suggestions
       (formatDebugReport report searchResults analysis) = None
  /\ DebugReport.analysis (formatDebugReport report searchResults analysis)
     = AnthropicMessage.content report
  /\ DebugReport.model (formatDebugReport report searchResults analysis)
     = AnthropicMessage.model report.
Proof.
  intros H. unfold formatDebugReport, extractRootCause, extractSuggestions,
    textContent. simpl. rewrite H. repeat split.
Qed.

(** C8 on a response made of one tool block. *)
Lemma formatDebugReport_without_text_witness :
  DebugReport.rootCause
    (formatDebugReport
       {| AnthropicMessage.content :=
            [ {| ContentBlock.type := lit "server_tool_use";
                 ContentBlock.text := None;
                 ContentBlock.citations := None |} ];
          AnthropicMessage.model := lit "claude-opus-4-20250514";
          AnthropicMessage.server_tool_use := Some [];
          AnthropicMessage.citations := Some [] |}
       None None) = None
  /\ DebugReport.suggestions
       (formatDebugReport
          {| AnthropicMessage.content :=
               [ {| ContentBlock.type := lit "server_tool_use";
                    ContentBlock.text := None;
                    ContentBlock.citations := None |} ];
             AnthropicMessage.model := lit "claude-opus-4-20250514";
             AnthropicMessage.server_tool_use := Some [];
             AnthropicMessage.citations := Some [] |}
          None None) = None.
Proof.
  split;
    apply (formatDebugReport_without_text
             {| AnthropicMessage.content :=
                  [ {| ContentBlock.type := lit "server_tool_use";
                       ContentBlock.text := None;
                       ContentBlock.citations := None |} ];
                AnthropicMessage.model := lit "claude-opus-4-20250514";
                AnthropicMessage.server_tool_use := Some [];
                AnthropicMessage.citations := Some [] |}
             None None);
    reflexivity.
Defined.

(** ** The root cause sentence *)

Lemma consumed_app (m rest : JSString) : consumed (m ++ rest) rest = m.
Proof.
  unfold consumed. rewrite length_app.
  replace (length m + length rest - length rest) with (length m) by lia.
  rewrite firstn_app, firstn_all, Nat.sub_diag. simpl. apply app_nil_r.
Qed.

(** A search passes over a prefix in which no match begins. *)
Lemma execFrom_skip (r : regex) (s : JSString) :
  forall pre before,
    (forall i, i < length pre -> matchAt r (skipn i (pre ++ s)) = None) ->
    execFrom r before (pre ++ s) = execFrom r (before ++ pre) s.
Proof.
  induction pre as [|c pre IH]; intros before H.
  - simpl. rewrite app_nil_r. reflexivity.
  - assert (H0 : matchAt r (c :: pre ++ s) = None)
      by (apply (H 0); simpl; lia).
    simpl. rewrite H0, IH.
    + rewrite <- app_assoc. reflexivity.
    + intros i Hi. apply (H (S i)). simpl. lia.
Qed.

Lemma execFrom_here (r : regex) (before s m : JSString)
  (caps : list JSString) :
  matchAt r s = Some (m, caps) -> execFrom r before s = Some (before, m, caps).
Proof.
  intros H. destruct s; simpl; rewrite H; reflexivity.
Qed.

Lemma matchAt_rootCause_sentence (post : JSString) :
  matchAt rootCausePattern (lit "Root cause: nonce collision. Try X." ++ post)
  = Some (lit "Root cause: nonce collision.", [lit "nonce collision."]).
Proof.
  unfold matchAt.
  lazy -[consumed].
  pose proof (consumed_app (lit "Root cause: nonce collision.")
                (lit " Try X." ++ post)) as E1.
  pose proof (consumed_app (lit "nonce collision.")
                (lit " Try X." ++ post)) as E2.
  lazy -[consumed] in E1, E2.
  rewrite E1, E2. reflexivity.
Qed.

(** C6: when the text of the primary response contains the sentence
    [Root cause: nonce collision. Try X.], no match of the pattern begins
    before it, and the one citation of the assembly is the [c] of the
    primary response, the report has [rootCause = "nonce collision."] and
    its [sources] and [citations] are exactly [[c]]. *)
Theorem formatDebugReport_root_cause
  (report : AnthropicMessage.t)
  (searchResults analysis : option AnthropicMessage.t)
  (c : Citation.t) (pre post : JSString) :
  textContent (AnthropicMessage.content report)
  = pre ++ lit "Root cause: nonce collision. Try X." ++ post ->
  (forall i, i < length pre ->
     matchAt rootCausePattern
       (skipn i (pre ++ lit "Root cause: nonce collision. Try X." ++ post))
     = None) ->
  AnthropicMessage.citations report = Some [c] ->
  citationsOf searchResults = [] ->
  citationsOf analysis = [] ->
  DebugReport.rootCause (formatDebugReport report searchResults analysis)
  = Some (lit "nonce collision.")
  /\ DebugReport.sources (formatDebugReport report searchResults analysis)
     = [c]
  /\ DebugReport.citations (formatDebugReport report searchResults analysis)
     = [c].
Proof.
  intros Ht Hfirst Hc Hs Ha.
  unfold formatDebugReport, extractRootCause. simpl.
  rewrite Ht, Hc, Hs, Ha. unfold exec.
  rewrite (execFrom_skip _ _ _ _ Hfirst).
  rewrite (execFrom_here _ _ _ _ _ (matchAt_rootCause_sentence post)).
  repeat split.
Qed.

(** The first match is the one reported: an earlier occurrence of the
    words takes the place of the sentence. *)
Example extractRootCause_first_match :
  extractRootCause
    [ {| ContentBlock.type := lit "text";
         ContentBlock.text :=
           Some (lit "No root cause yet. Root cause: nonce collision. Try X.");
         ContentBlock.citations := None |} ]
  = Some (lit "yet.").
Proof.
  reflexivity.
Qed.

(** C6, the claim as worded fails: the text of this primary response
    contains the sentence and the response carries exactly one citation,
    yet the words [root cause] occur earlier in the text, so the report's
    [rootCause] is [yet.], the capture of that first match, and not
    [nonce collision.]; the sources are the one citation all the same. *)
Lemma formatDebugReport_root_cause_earlier_match :
  textContent
    [ {| ContentBlock.type := lit "text";
         ContentBlock.text :=
           Some (lit "No root cause yet. Root cause: nonce collision. Try X.");
         ContentBlock.citations := None |} ]
  = lit "No root cause yet. " ++ lit "Root cause: nonce collision. Try X."
  /\ DebugReport.rootCause
       (formatDebugReport
          {| AnthropicMessage.content :=
               [ {| ContentBlock.type := lit "text";
                    ContentBlock.text :=
                      Some (lit "No root cause yet. Root cause: nonce collision. Try X.");
                    ContentBlock.citations := None |} ];
             AnthropicMessage.model := lit "claude-opus-4-20250514";
             AnthropicMessage.server_tool_use := Some [lit "web_search"];
             AnthropicMessage.citations :=
               Some [ {| Citation.url := lit "https://docs.sei.io";
                         Citation.title := lit "Sei docs";
                         Citation.cited_text := None |} ] |}
          None None)
     = Some (lit "yet.")
  /\ DebugReport.rootCause
       (formatDebugReport
          {| AnthropicMessage.content :=
               [ {| ContentBlock.type := lit "text";
                    ContentBlock.text :=
                      Some (lit "No root cause yet. Root cause: nonce collision. Try X.");
                    ContentBlock.citations := None |} ];
             AnthropicMessage.model := lit "claude-opus-4-20250514";
             AnthropicMessage.server_tool_use := Some [lit "web_search"];
             AnthropicMessage.citations :=
               Some [ {| Citation.url := lit "https://docs.sei.io";
                         Citation.title := lit "Sei docs";
                         Citation.cited_text := None |} ] |}
          None None)
     <> Some (lit "nonce collision.")
  /\ DebugReport.sources
       (formatDebugReport
          {| AnthropicMessage.content :=
               [ {| ContentBlock.type := lit "text";
                    ContentBlock.text :=
                      Some (lit "No root cause yet. Root cause: nonce collision. Try X.");
                    ContentBlock.citations := None |} ];
             AnthropicMessage.model := lit "claude-opus-4-20250514";
             AnthropicMessage.server_tool_use := Some [lit "web_search"];
             AnthropicMessage.citations :=
               Some [ {| Citation.url := lit "https://docs.sei.io";
                         Citation.title := lit "Sei docs";
                         Citation.cited_text := None |} ] |}
          None None)
     = [ {| Citation.url := lit "https://docs.sei.io";
            Citation.title := lit "Sei docs";
            Citation.cited_text := None |} ].
Proof.
  split; [reflexivity | ].
  split; [reflexivity | ].
  split; [ | reflexivity].
  intros H. vm_compute in H. discriminate H.
Qed.

(** C6 on the sentence alone, and on the sentence after another text
    block. *)
Lemma formatDebugReport_root_cause_witness :
  DebugReport.rootCause
    (formatDebugReport
       {| AnthropicMessage.content :=
            [ {| ContentBlock.type := lit "text";
                 ContentBlock.text :=
                   Some (lit "Root cause: nonce collision. Try X.");
                 ContentBlock.citations := None |} ];
          AnthropicMessage.model := lit "claude-opus-4-20250514";
          AnthropicMessage.server_tool_use := Some [lit "web_search"];
          AnthropicMessage.citations :=
            Some [ {| Citation.url := lit "https://docs.sei.io";
                      Citation.title := lit "Sei docs";
                      Citation.cited_text := None |} ] |}
       None None)
  = Some (lit "nonce collision.")
  /\ DebugReport.rootCause
       (formatDebugReport
          {| AnthropicMessage.content :=
               [ {| ContentBlock.type := lit "text";
                    ContentBlock.text := Some (lit "Analysis done.");
                    ContentBlock.citations := None |};
                 {| ContentBlock.type := lit "text";
                    ContentBlock.text :=
                      Some (lit "Root cause: nonce collision. Try X.");
                    ContentBlock.citations := None |} ];
             AnthropicMessage.model := lit "claude-opus-4-20250514";
             AnthropicMessage.server_tool_use := Some [lit "web_search"];
             AnthropicMessage.citations :=
               Some [ {| Citation.url := lit "https://docs.sei.io";
                         Citation.title := lit "Sei docs";
                         Citation.cited_text := None |} ] |}
          None None)
     = Some (lit "nonce collision.").
Proof.
  split.
  - apply (formatDebugReport_root_cause _ None None
             {| Citation.url := lit "https://docs.sei.io";
                Citation.title := lit "Sei docs";
                Citation.cited_text := None |}
             [] []).
    + reflexivity.
    + intros i Hi. simpl in Hi. lia.
    + reflexivity.
    + reflexivity.
    + reflexivity.
  - apply (formatDebugReport_root_cause _ None None
             {| Citation.url := lit "https://docs.sei.io";
                Citation.title := lit "Sei docs";
                Citation.cited_text := None |}
             (lit "Analysis done. ") []).
    + reflexivity.
    + intros i Hi.
      do 15 (destruct i as [|i]; [reflexivity | ]).
      simpl in Hi. lia.
    + reflexivity.
    + reflexivity.
    + reflexivity.
Defined.

(** * Further properties: the matcher read backwards *)

Section MatcherInversion.

Context {R : Type}.

Lemma runTimes_inv (n : nat) (p : N -> bool) (caps : list JSString)
  (s : JSString) (k : cont R) (x : R) :
  runTimes n p caps s k = Some x ->
  exists h rest,
    s = h ++ rest /\ length h = n /\ forallb p h = true
    /\ k caps rest = Some x.
Proof.
  revert s. induction n as [|n IH]; intros s H; simpl in H.
  - exists [], s. auto.
  - destruct s as [|c s']; [discriminate | ].
    destruct (p c) eqn:E; [ | discriminate].
    apply IH in H as (h & rest & -> & Hl & Hp & Hk).
    exists (c :: h), rest. simpl. rewrite E, Hp, Hl. auto.
Qed.

Lemma runStar_inv (p : N -> bool) (caps : list JSString) (s : JSString)
  (k : cont R) (x : R) :
  runStar p caps s k = Some x ->
  exists pre rest,
    s = pre ++ rest /\ forallb p pre = true /\ k caps rest = Some x.
Proof.
  induction s as [|c s IH]; simpl; intros H.
  - exists [], []. auto.
  - destruct (p c) eqn:E.
    + destruct (runStar p caps s k) as [y|] eqn:E2; simpl in H.
      * injection H as ->.
        destruct (IH eq_refl) as (pre & rest & -> & Hp & Hk).
        exists (c :: pre), rest. simpl. rewrite E, Hp. auto.
      * exists [], (c :: s). auto.
    + exists [], (c :: s). auto.
Qed.

(** A greedy star hands over at the end of the longest run when the rest
    of the pattern accepts there. *)
Lemma runStar_longest (p : N -> bool) (caps : list JSString)
  (pre rest : JSString) (k : cont R) (x : R) :
  forallb p pre = true ->
  match rest with c :: _ => p c = false | [] => True end ->
  k caps rest = Some x ->
  runStar p caps (pre ++ rest) k = Some x.
Proof.
  intros Hp Hr Hk. induction pre as [|c pre IH]; simpl in *.
  - destruct rest as [|c rest]; simpl; [exact Hk | ].
    rewrite Hr. exact Hk.
  - apply andb_prop in Hp as [Hc Hp]. rewrite Hc, (IH Hp). reflexivity.
Qed.

End MatcherInversion.

Lemma char_true (a : ascii) (c : N) : char a c = true -> c = unit_of a.
Proof.
  unfold char. apply N.eqb_eq.
Qed.

Lemma execFrom_Some (r : regex) (s before b m : JSString)
  (caps : list JSString) :
  execFrom r before s = Some (b, m, caps) ->
  exists pre rest,
    s = pre ++ rest /\ b = before ++ pre
    /\ matchAt r rest = Some (m, caps)
    /\ forall i, i < length pre -> matchAt r (skipn i s) = None.
Proof.
  revert before. induction s as [|c s IH]; intros before H.
  - simpl in H. destruct (matchAt r []) as [[m' caps']|] eqn:E;
      [ | discriminate].
    inversion H; subst. exists [], [].
    repeat apply conj; auto; try (symmetry; apply app_nil_r);
        simpl; intros; lia.
  - simpl in H. destruct (matchAt r (c :: s)) as [[m' caps']|] eqn:E.
    + inversion H; subst. exists [], (c :: s).
      repeat apply conj; auto; try (symmetry; apply app_nil_r);
        simpl; intros; lia.
    + apply IH in H as (pre & rest & -> & -> & Hm & Hf).
      exists (c :: pre), rest. rewrite <- app_assoc.
      repeat apply conj; auto.
      intros [|i] Hi; simpl in *; [exact E | apply Hf; lia].
Qed.

Lemma execFrom_None (r : regex) (s before : JSString) :
  execFrom r before s = None ->
  forall pre rest, s = pre ++ rest -> matchAt r rest = None.
Proof.
  intros H pre rest ->.
  destruct (matchAt r rest) as [y|] eqn:E; [ | reflexivity].
  exfalso. refine (execFrom_found r rest _ pre before H). congruence.
Qed.

(** ** The two hash patterns *)

Lemma matchWhole_hashPattern (h : JSString) :
  matchWhole hashPattern h <> None <->
  exists digits,
    h = lit "0x" ++ digits /\ length digits = 64
    /\ forallb hexDigit digits = true.
Proof.
  unfold matchWhole, hashPattern. split.
  - intros H. destruct h as [|c0 [|c1 t]]; cbn [run] in H; try congruence.
    + destruct (char "0" c0); congruence.
    + destruct (char "0" c0) eqn:E0; [ | congruence].
      destruct (char "x" c1) eqn:E1; [ | congruence].
      apply char_true in E0, E1. subst.
      destruct (runTimes 64 hexDigit [] t _) as [y|] eqn:E; [ | congruence].
      apply runTimes_inv in E as (d & rest & -> & Hl & Hp & Hk).
      destruct rest; [ | discriminate].
      exists d. rewrite app_nil_r. auto.
  - intros (d & -> & Hl & Hp).
    change (lit "0x" ++ d) with (48%N :: 120%N :: d).
    cbn [run]. change (char "0" 48) with true. change (char "x" 120) with true.
    cbn iota. rewrite <- (app_nil_r d), runTimes_all by assumption.
    discriminate.
Qed.

Lemma matchAt_hashPattern_inv (s m : JSString) (caps : list JSString) :
  matchAt hashPattern s = Some (m, caps) ->
  exists digits rest,
    s = m ++ rest /\ m = lit "0x" ++ digits /\ length digits = 64
    /\ forallb hexDigit digits = true /\ caps = [].
Proof.
  unfold matchAt, hashPattern. intros H.
  destruct s as [|c0 [|c1 t]]; cbn [run] in H; try discriminate.
  - destruct (char "0" c0); discriminate.
  - destruct (char "0" c0) eqn:E0; [ | discriminate].
    destruct (char "x" c1) eqn:E1; [ | discriminate].
    apply char_true in E0, E1. subst.
    apply runTimes_inv in H as (d & rest & -> & Hl & Hp & Hk).
    injection Hk as <- <-.
    change (48%N :: 120%N :: d ++ rest) with ((lit "0x" ++ d) ++ rest).
    rewrite consumed_app. exists d, rest. auto.
Qed.

Lemma skipn_length_app (A : Type) (pre rest : list A) :
  skipn (length pre) (pre ++ rest) = rest.
Proof.
  induction pre; simpl; auto.
Qed.

Lemma validateTxHash_digits (h : JSString) :
  validateTxHash h = true <->
  exists digits,
    h = lit "0x" ++ digits /\ length digits = 64
    /\ forallb hexDigit digits = true.
Proof.
  rewrite <- matchWhole_hashPattern. unfold validateTxHash.
  destruct (matchWhole hashPattern h); split; congruence.
Qed.

Lemma app_same_length (A : Type) (a b x y : list A) :
  length a = length b -> a ++ x = b ++ y -> a = b /\ x = y.
Proof.
  revert b. induction a as [|c a IH]; intros [|c' b] Hl H;
    simpl in *; try discriminate; auto.
  injection H as -> H. injection Hl as Hl.
  destruct (IH b Hl H) as [-> ->]. auto.
Qed.

Lemma matchAt_valid_hash (h post : JSString) :
  validateTxHash h = true ->
  matchAt hashPattern (h ++ post) = Some (h, []).
Proof.
  intros H. apply validateTxHash_digits in H as (d & -> & Hl & Hp).
  destruct (matchAt hashPattern ((lit "0x" ++ d) ++ post)) as [[m caps]|] eqn:E.
  - apply matchAt_hashPattern_inv in E as (d' & rest & E1 & -> & Hl' & _ & ->).
    apply app_same_length in E1 as [-> _]; [reflexivity | ].
    rewrite !length_app. lia.
  - exfalso. rewrite <- app_assoc in E.
    exact (matchAt_hashPattern d post Hl Hp E).
Qed.

(** X1: [validateTxHash], and with it the [isValidTxHash] of the commands,
    accepts exactly the texts made of [0x] and 64 hexadecimal digits, 66
    code units in all. *)
Theorem validateTxHash_exact (hash : JSString) :
  (validateTxHash hash = true <->
   exists digits,
     hash = lit "0x" ++ digits /\ length digits = 64
     /\ forallb hexDigit digits = true)
  /\ isValidTxHash hash = validateTxHash hash
  /\ (validateTxHash hash = true -> length hash = 66).
Proof.
  split; [apply validateTxHash_digits | split; [reflexivity | ]].
  intros H. apply validateTxHash_digits in H as (d & -> & Hl & _).
  rewrite length_app, Hl. reflexivity.
Qed.

(** X2: [extractTxHash] answers [h] exactly when [h] is a valid hash that
    occurs in the text and no valid hash occurs further left. *)
Theorem extractTxHash_first_hash (text h : JSString) :
  extractTxHash text = Some h <->
  exists pre post,
    text = pre ++ h ++ post
    /\ validateTxHash h = true
    /\ forall pre' h' post',
         text = pre' ++ h' ++ post' -> validateTxHash h' = true ->
         length pre <= length pre'.
Proof.
  unfold extractTxHash, exec. split.
  - destruct (execFrom hashPattern [] text) as [[[b m] caps]|] eqn:E;
      [ | discriminate].
    intros [= ->].
    apply execFrom_Some in E as (pre & rest & -> & _ & Hm & Hf).
    pose proof Hm as Hi.
    apply matchAt_hashPattern_inv in Hi as (d & post & -> & -> & Hl & Hp & _).
    exists pre, post. repeat apply conj.
    + reflexivity.
    + apply validateTxHash_digits. exists d. auto.
    + intros pre' h' post' E' Hv.
      destruct (Nat.le_gt_cases (length pre) (length pre')) as [Hle | Hlt];
        [exact Hle | ].
      specialize (Hf _ Hlt). rewrite E', skipn_length_app in Hf.
      rewrite (matchAt_valid_hash h' post' Hv) in Hf. discriminate.
  - intros (pre & post & -> & Hv & Hfirst).
    destruct (execFrom hashPattern [] (pre ++ h ++ post))
      as [[[b m] caps]|] eqn:E.
    + apply execFrom_Some in E as (pre0 & rest & E0 & _ & Hm & Hf).
      pose proof Hm as Hi.
      apply matchAt_hashPattern_inv in Hi as (d & post0 & -> & Em & Hl & Hp & _).
      assert (Hv0 : validateTxHash m = true)
        by (apply validateTxHash_digits; exists d; auto).
      pose proof (Hfirst pre0 m post0 E0 Hv0) as Hle.
      assert (Hlen : length pre = length pre0).
      { destruct (Nat.eq_dec (length pre) (length pre0)) as [e | ne];
          [exact e | ].
        assert (Hlt : length pre < length pre0) by lia.
        specialize (Hf _ Hlt). rewrite skipn_length_app in Hf.
        rewrite (matchAt_valid_hash h post Hv) in Hf. discriminate. }
      apply (f_equal (skipn (length pre))) in E0.
      rewrite skipn_length_app, Hlen, skipn_length_app in E0.
      rewrite <- E0, (matchAt_valid_hash h post Hv) in Hm.
      congruence.
    + exfalso. refine (execFrom_found hashPattern (h ++ post) _ pre [] E).
      rewrite (matchAt_valid_hash h post Hv). discriminate.
Qed.

Lemma test_exec (r : regex) (s : JSString) :
  test r s = true <-> exec r s <> None.
Proof.
  unfold test. destruct (exec r s); split; congruence.
Qed.

Lemma extractTxHash_test (text : JSString) :
  test hashPattern text = true <-> exists h, extractTxHash text = Some h.
Proof.
  unfold test, extractTxHash.
  destruct (exec hashPattern text) as [[[b m] caps]|]; split;
    try congruence.
  - intros _. exists m. reflexivity.
  - intros [h H]. discriminate.
Qed.

(** X3: the classifier labels an issue a transaction exactly when
    [extractTxHash] finds a hash in it, that is when a valid hash occurs in
    the text. *)
Theorem classifyIssue_transaction_iff_hash
  (toLowerCase : JSString -> JSString) (issue : JSString)
  (userContext : option JSString) :
  (type (classifyIssue toLowerCase issue userContext) = transaction
   <-> exists h, extractTxHash issue = Some h)
  /\ (type (classifyIssue toLowerCase issue userContext) = transaction
      <-> exists pre h post,
            issue = pre ++ h ++ post /\ validateTxHash h = true).
Proof.
  assert (H : type (classifyIssue toLowerCase issue userContext) = transaction
              <-> test hashPattern issue = true).
  { split.
    - apply classifyIssue_transaction_hash.
    - intros Ht. apply (classifyIssue_of_hash toLowerCase issue userContext Ht). }
  rewrite H, extractTxHash_test. split; [reflexivity | ]. split.
  - intros [h Hh]. apply extractTxHash_first_hash in Hh
      as (pre & post & -> & Hv & _).
    exists pre, h, post. auto.
  - intros (pre & h & post & -> & Hv).
    destruct (extractTxHash (pre ++ h ++ post)) as [h0|] eqn:E;
      [exists h0; reflexivity | ].
    exfalso. unfold extractTxHash, exec in E.
    destruct (execFrom hashPattern [] (pre ++ h ++ post))
      as [[[b m] caps]|] eqn:E2; [discriminate | ].
    refine (execFrom_found hashPattern (h ++ post) _ pre [] E2).
    rewrite (matchAt_valid_hash h post Hv). discriminate.
Qed.

(** X4: what the handlers of [tx] and [parallel] pass on is always a valid
    hash, so neither [debugTransaction] nor [debugParallelExecution] throws
    on it; they give up exactly when the argument holds no hash, and a valid
    argument is passed on as it is. *)
Theorem resolveTxHash_valid (input : JSString) :
  (forall h, resolveTxHash input = Some h ->
     validateTxHash h = true
     /\ debugTransaction h None
        = inr (Debug (lit "Debug transaction " ++ h) None)
     /\ debugParallelExecution h None
        = inr (DebugParallelExecution h None))
  /\ (resolveTxHash input = None <-> extractTxHash input = None)
  /\ (validateTxHash input = true -> resolveTxHash input = Some input).
Proof.
  unfold resolveTxHash. split; [ | split].
  - intros h H.
    assert (Hv : validateTxHash h = true).
    { destruct (validateTxHash input) eqn:E; simpl in H.
      - injection H as <-. exact E.
      - destruct (extractTxHash input) as [h0|] eqn:E2; [ | discriminate].
        injection H as <-.
        apply extractTxHash_first_hash in E2 as (_ & _ & _ & Hv & _).
        exact Hv. }
    split; [exact Hv | ].
    unfold debugTransaction, debugParallelExecution.
    change (isValidTxHash h) with (validateTxHash h). rewrite Hv. simpl.
    rewrite app_nil_r. auto.
  - destruct (validateTxHash input) eqn:E; simpl.
    + split; [discriminate | ]. intros H.
      pose proof (matchAt_valid_hash input [] E) as Hm.
      rewrite app_nil_r in Hm. unfold extractTxHash, exec in H.
      rewrite (execFrom_here _ _ _ _ _ Hm) in H. discriminate.
    + destruct (extractTxHash input); split; congruence.
  - intros E. rewrite E. reflexivity.
Qed.

Lemma classifyIssue_hash_high_tier (toLowerCase : JSString -> JSString)
  (issue : JSString) (userContext : option JSString) :
  test hashPattern issue = true ->
  type (classifyIssue toLowerCase issue userContext) = transaction
  /\ requiresCodeExecution (classifyIssue toLowerCase issue userContext)
     = Some true
  /\ selectModel (classifyIssue toLowerCase issue userContext) = OPUS_4.
Proof.
  intros H.
  destruct (classifyIssue_of_hash toLowerCase issue userContext H)
    as (Ht & Hc & _).
  repeat apply conj; auto.
  apply selectModel_OPUS_4_iff. right. left. rewrite Hc. reflexivity.
Qed.

(** X5: [debugTransaction] throws on an invalid hash; on a valid one it
    asks the agent to debug an issue whose first hash is that very hash,
    whatever the context holds, and which the classifier labels a
    transaction for the high tier. *)
Theorem debugTransaction_issue (toLowerCase : JSString -> JSString)
  (txHash : JSString) (userContext : option JSString) :
  (isValidTxHash txHash = false ->
     debugTransaction txHash userContext = inl invalidHashFormat)
  /\ (isValidTxHash txHash = true ->
      exists issue,
        debugTransaction txHash userContext = inr (Debug issue userContext)
        /\ extractTxHash issue = Some txHash
        /\ type (classifyIssue toLowerCase issue userContext) = transaction
        /\ selectModel (classifyIssue toLowerCase issue userContext)
           = OPUS_4).
Proof.
  unfold debugTransaction. split; intros H; rewrite H; simpl;
    [reflexivity | ].
  eexists. split; [reflexivity | ].
  assert (He : extractTxHash
                 (lit "Debug transaction " ++ txHash
                  ++ contextSuffix userContext) = Some txHash).
  { unfold extractTxHash, exec. rewrite execFrom_skip.
    - rewrite (execFrom_here _ _ _ _ _
                 (matchAt_valid_hash txHash (contextSuffix userContext) H)).
      reflexivity.
    - intros i Hi.
      do 18 (destruct i as [|i]; [reflexivity | ]).
      simpl in Hi. lia. }
  split; [exact He | ].
  assert (Ht : test hashPattern
                 (lit "Debug transaction " ++ txHash
                  ++ contextSuffix userContext) = true)
    by (apply extractTxHash_test; eexists; exact He).
  destruct (classifyIssue_hash_high_tier toLowerCase _ userContext Ht)
    as (H1 & _ & H2).
  auto.
Qed.

(** X6: [debugGasIssues] validates nothing itself: whatever the agent
    does, its outcome is the outcome of the one call it awaits, a rejection
    included.  Both of its calls run with code execution on the high tier;
    called with a valid hash its issue is classified as a transaction, not
    as gas. *)
Theorem debugGasIssues_high_tier (toLowerCase : JSString -> JSString)
  (dataOrTxHash : JSString) (userContext : option JSString) :
  exists call,
    (forall (Thrown Report : Type) (agent : AgentCall -> Thrown + Report),
        debugGasIssues agent dataOrTxHash userContext = agent call)
    /\ requiresCodeExecution (agentTask toLowerCase call) = Some true
    /\ selectModel (agentTask toLowerCase call) = OPUS_4
    /\ (isValidTxHash dataOrTxHash = true ->
        type (agentTask toLowerCase call) = transaction)
    /\ (isValidTxHash dataOrTxHash = false ->
        call = AnalyzeGasPatterns dataOrTxHash
        /\ type (agentTask toLowerCase call) = gas).
Proof.
  unfold debugGasIssues. destruct (isValidTxHash dataOrTxHash) eqn:E.
  - eexists. split; [intros; reflexivity | ]. simpl.
    assert (Ht : test hashPattern
                   (lit "Analyze gas usage for transaction " ++ dataOrTxHash)
                 = true).
    { apply validateTxHash_digits in E as (d & -> & Hl & Hp).
      rewrite <- (app_nil_r d).
      apply test_hashPattern_occurrence; [lia | exact Hp]. }
    destruct (classifyIssue_hash_high_tier toLowerCase _ userContext Ht)
      as (H1 & H2 & H3).
    repeat apply conj; auto. intros H0. discriminate.
  - eexists. split; [intros; reflexivity | ]. simpl.
    repeat apply conj; auto. intros H0. discriminate.
Qed.

(** ** A command line and its pieces *)

Lemma split_pieces (s : JSString) :
  exists piece pieces,
    split 32 s = piece :: pieces
    /\ noSpace piece = true
    /\ s = piece ++ match pieces with
                    | [] => []
                    | _ :: _ => lit " " ++ join (lit " ") (map Some pieces)
                    end
    /\ (pieces = [] <-> noSpace s = true).
Proof.
  induction s as [|u s (piece & pieces & E & Hn & Hs & Hp)]; simpl.
  - exists [], []. repeat apply conj; auto.
  - destruct (N.eqb u 32) eqn:Eu; simpl.
    + apply N.eqb_eq in Eu. subst u.
      exists [], (split 32 s). rewrite E. repeat apply conj; auto.
      * simpl. f_equal. destruct pieces as [|q pieces]; simpl in *.
        -- rewrite app_nil_r in Hs. exact Hs.
        -- exact Hs.
      * discriminate.
      * discriminate.
    + rewrite E. exists (u :: piece), pieces. simpl. rewrite Eu, Hn.
      repeat apply conj; auto.
      * f_equal. exact Hs.
      * apply Hp.
      * apply Hp.
Qed.

(** X7: a line of the interactive loop is cut at its first space: the
    command has no space, a line without a space is the command with empty
    data, and otherwise command, space and data give the line back. *)
Theorem parseLine_round_trip (input : JSString) :
  noSpace (ParsedCommand.command (parseLine input)) = true
  /\ (noSpace input = true ->
      ParsedCommand.command (parseLine input) = input
      /\ ParsedCommand.data (parseLine input) = [])
  /\ (noSpace input = false ->
      input = ParsedCommand.command (parseLine input) ++ lit " "
              ++ ParsedCommand.data (parseLine input)).
Proof.
  unfold parseLine.
  destruct (split_pieces input) as (piece & pieces & E & Hn & Hs & Hp).
  rewrite E. simpl. split; [exact Hn | split].
  - intros H. apply Hp in H. subst pieces. simpl in *.
    rewrite app_nil_r in Hs. auto.
  - intros H. destruct pieces as [|q pieces].
    + destruct Hp as [Hp _]. rewrite (Hp eq_refl) in H. discriminate.
    + exact Hs.
Qed.

(** ** Answers of the provider, formatted and assembled *)

Lemma formatMessage_text_citations (m : RawMessage.t) :
  AnthropicMessage.citations (formatMessage m)
  = Some (textCitations (RawMessage.content m)).
Proof.
  unfold formatMessage, textCitations. simpl. f_equal.
  induction (RawMessage.content m) as [|c l IH]; simpl; [reflexivity | ].
  unfold hasCitations at 1.
  destruct (isTextBlock c); simpl; [ | exact IH].
  destruct (ContentBlock.citations c) eqn:E; simpl; rewrite ?E, IH;
    reflexivity.
Qed.

(** X8: a report assembled from formatted answers lists either no tool or
    exactly [web_search] and [code_execution], and no tool exactly when no
    answer has the flag [usage.tool_use]. *)
Theorem formatDebugReport_of_formatted_tools (report : RawMessage.t)
  (searchResults analysis : option RawMessage.t) :
  let r :=
    formatDebugReport (formatMessage report)
      (option_map formatMessage searchResults)
      (option_map formatMessage analysis) in
  (DebugReport.toolsUsed r = []
   \/ DebugReport.toolsUsed r = [lit "web_search"; lit "code_execution"])
  /\ (DebugReport.toolsUsed r = []
      <-> truthy (usedTools report) = false
          /\ rawUsedTools searchResults = false
          /\ rawUsedTools analysis = false).
Proof.
  unfold formatDebugReport, formatMessage. simpl.
  destruct (truthy (usedTools report));
    destruct searchResults as [m2|]; destruct analysis as [m3|]; simpl;
    try destruct (truthy (usedTools m2));
    try destruct (truthy (usedTools m3));
    (split; [auto | split; [intros H; try discriminate; auto
                           | intros (H1 & H2 & H3);
                             try discriminate; reflexivity]]).
Qed.

(** X9: the sources of a report assembled from formatted answers are the
    citations of the text blocks of the three answers, in order; a citation
    of the report always comes from a block of type [text]. *)
Theorem formatDebugReport_of_formatted_sources (report : RawMessage.t)
  (searchResults analysis : option RawMessage.t) :
  let r :=
    formatDebugReport (formatMessage report)
      (option_map formatMessage searchResults)
      (option_map formatMessage analysis) in
  DebugReport.sources r
  = textCitations (RawMessage.content report)
    ++ rawTextCitations searchResults ++ rawTextCitations analysis
  /\ DebugReport.citations r = DebugReport.sources r
  /\ (forall c : Citation.t,
        In c (DebugReport.sources r) ->
        exists m block,
          In m (report :: match searchResults with Some x => [x] | None => [] end
                ++ match analysis with Some x => [x] | None => [] end)
          /\ In block (RawMessage.content m)
          /\ ContentBlock.type block = lit "text"
          /\ In c (orEmpty (ContentBlock.citations block))).
Proof.
  assert (Hin : forall content c,
            In c (textCitations content) ->
            exists block, In block content
                          /\ ContentBlock.type block = lit "text"
                          /\ In c (orEmpty (ContentBlock.citations block))).
  { intros content c H. unfold textCitations in H.
    apply in_flat_map in H as (block & Hb & Hc).
    exists block. split; [exact Hb | ].
    destruct (isTextBlock block) eqn:E; [ | destruct Hc].
    apply eqb_string_true in E. auto. }
  assert (Hs : DebugReport.sources
                 (formatDebugReport (formatMessage report)
                    (option_map formatMessage searchResults)
                    (option_map formatMessage analysis))
               = textCitations (RawMessage.content report)
                 ++ rawTextCitations searchResults
                 ++ rawTextCitations analysis).
  { unfold formatDebugReport, citationsOf.
    destruct searchResults as [m2|], analysis as [m3|];
      cbn [DebugReport.sources option_map];
      rewrite !formatMessage_text_citations; reflexivity. }
  intros r. subst r. split; [exact Hs | split; [reflexivity | ]].
  intros c H. rewrite Hs in H.
  apply in_app_or in H as [H | H].
  - apply Hin in H as (block & Hb & Ht & Hc).
    exists report, block. simpl. auto.
  - apply in_app_or in H as [H | H].
    + destruct searchResults as [m2|]; [ | destruct H].
      apply Hin in H as (block & Hb & Ht & Hc).
      exists m2, block. simpl. auto.
    + destruct analysis as [m3|]; [ | destruct H].
      apply Hin in H as (block & Hb & Ht & Hc).
      exists m3, block. split; [ | auto].
      right. apply in_or_app. right. left. reflexivity.
Qed.

(** ** The sentences cut out of a report *)

Section RunInversion.

Context {R : Type}.

Lemma run_groupFree (r : regex) :
  groupFree r = true ->
  forall (caps : list JSString) (s : JSString) (k : cont R) (x : R),
    run r caps s k = Some x ->
    exists m s', s = m ++ s' /\ k caps s' = Some x.
Proof.
  induction r as [ |p|r1 IH1 r2 IH2|r1 IH1 r2 IH2|p|n p|r IH];
    intros Hg caps s k x H; simpl in *.
  - exists [], s. auto.
  - destruct s as [|c s']; [discriminate | ].
    destruct (p c); [ | discriminate]. exists [c], s'. auto.
  - apply andb_prop in Hg as [Hg1 Hg2].
    apply (IH1 Hg1) in H as (m1 & s1 & -> & H).
    apply (IH2 Hg2) in H as (m2 & s2 & -> & H).
    exists (m1 ++ m2), s2. rewrite <- app_assoc. auto.
  - apply andb_prop in Hg as [Hg1 Hg2].
    destruct (run r1 caps s k) as [y|] eqn:E; simpl in H.
    + injection H as ->. apply (IH1 Hg1) in E. exact E.
    + apply (IH2 Hg2) in H. exact H.
  - apply runStar_inv in H as (pre & rest & -> & _ & H). eauto.
  - apply runTimes_inv in H as (h & rest & -> & _ & _ & H). eauto.
  - discriminate.
Qed.

Lemma run_prefix_groupFree (rs : list regex) (tail : regex) :
  forallb groupFree rs = true ->
  forall (caps : list JSString) (s : JSString) (k : cont R) (x : R),
    run (fold_right Cat tail rs) caps s k = Some x ->
    exists m s', s = m ++ s' /\ run tail caps s' k = Some x.
Proof.
  induction rs as [|r rs IH]; intros Hg caps s k x H; simpl in *.
  - exists [], s. auto.
  - apply andb_prop in Hg as [Hg1 Hg2].
    apply (run_groupFree r Hg1) in H as (m1 & s1 & -> & H).
    apply (IH Hg2) in H as (m2 & s2 & -> & H).
    exists (m1 ++ m2), s2. rewrite <- app_assoc. auto.
Qed.

(** One or more units of a class, then a dot. *)
Lemma run_sentence_inv (p : N -> bool) (caps : list JSString)
  (s : JSString) (k : cont R) (x : R) :
  run (Cat (Plus p) (Class (char "."))) caps s k = Some x ->
  exists c body s',
    s = (c :: body ++ lit ".") ++ s'
    /\ p c = true /\ forallb p body = true /\ k caps s' = Some x.
Proof.
  unfold Plus. cbn [run]. intros H.
  destruct s as [|c t]; [discriminate | ].
  destruct (p c) eqn:Ec; [ | discriminate].
  apply runStar_inv in H as (body & rest & -> & Hb & H).
  destruct rest as [|d s']; [discriminate | ].
  destruct (char "." d) eqn:Ed; [ | discriminate].
  apply char_true in Ed. subst d.
  exists c, body, s'. simpl. rewrite <- app_assoc. auto.
Qed.

End RunInversion.

Lemma matchAt_rootCausePattern_inv (s m : JSString) (caps : list JSString) :
  matchAt rootCausePattern s = Some (m, caps) ->
  exists pre c body post,
    s = pre ++ (c :: body ++ lit ".") ++ post
    /\ notDot c = true /\ forallb notDot body = true
    /\ caps = [c :: body ++ lit "."].
Proof.
  unfold matchAt. intros H.
  change rootCausePattern
    with (fold_right Cat
            (Cat (Group (Cat (Plus notDot) (Class (char ".")))) Empty)
            (literalWith isIgnoreCase "root cause" ++ [Plus colonOrSpace]))
    in H.
  apply run_prefix_groupFree in H as (pre & s1 & -> & H); [ | reflexivity].
  cbn [run] in H. fold (Plus notDot) in H.
  apply (run_sentence_inv notDot) in H as (c & body & post & -> & Hc & Hb & H).
  rewrite (consumed_app (c :: body ++ lit ".") post) in H.
  injection H as _ <-.
  exists pre, c, body, post. auto.
Qed.

(** X10: a reported root cause is one sentence of the text: some text
    without a dot, not empty, followed by a dot. *)
Theorem extractRootCause_sentence (content : list ContentBlock.t)
  (rc : JSString) :
  extractRootCause content = Some rc ->
  exists body pre post,
    rc = body ++ lit "."
    /\ body <> []
    /\ forallb notDot body = true
    /\ textContent content = pre ++ rc ++ post.
Proof.
  unfold extractRootCause, exec. intros H.
  destruct (execFrom rootCausePattern [] (textContent content))
    as [[[b m] caps]|] eqn:E; [ | discriminate].
  apply execFrom_Some in E as (pre0 & rest & E0 & _ & Hm & _).
  apply matchAt_rootCausePattern_inv in Hm
    as (pre1 & c & body & post & -> & Hc & Hb & ->).
  simpl in H. injection H as <-.
  exists (c :: body), (pre0 ++ pre1), post. repeat apply conj.
  - reflexivity.
  - discriminate.
  - simpl. rewrite Hc, Hb. reflexivity.
  - rewrite E0, <- app_assoc. reflexivity.
Qed.

(** X10 on the sentence of the scenario. *)
Lemma extractRootCause_sentence_witness :
  exists body pre post,
    lit "nonce collision." = body ++ lit "."
    /\ body <> []
    /\ forallb notDot body = true
    /\ textContent
         [ {| ContentBlock.type := lit "text";
              ContentBlock.text :=
                Some (lit "Root cause: nonce collision. Try X.");
              ContentBlock.citations := None |} ]
       = pre ++ lit "nonce collision." ++ post.
Proof.
  apply (extractRootCause_sentence
           [ {| ContentBlock.type := lit "text";
                ContentBlock.text :=
                  Some (lit "Root cause: nonce collision. Try X.");
                ContentBlock.citations := None |} ]
           (lit "nonce collision.")).
  reflexivity.
Defined.

(** *** Suggestions *)

Lemma matchAllFrom_In (r : regex) (m : JSString) (s : JSString) :
  forall skip, In m (matchAllFrom r skip s) ->
  exists s' caps, matchAt r s' = Some (m, caps).
Proof.
  induction s as [|c s IH]; intros skip H; simpl in H.
  - destruct skip; [ | destruct H].
    destruct (matchAt r []) as [[m' caps]|] eqn:E; [ | destruct H].
    destruct H as [<- | []]. eauto.
  - destruct skip as [|n]; [ | exact (IH _ H)].
    destruct (matchAt r (c :: s)) as [[m' caps]|] eqn:E.
    + destruct H as [<- | H]; [eauto | exact (IH _ H)].
    + exact (IH _ H).
Qed.

Section MarkerRuns.

Context {R : Type}.

Lemma orElse_Some (a b : option R) (x : R) :
  orElse a b = Some x -> a = Some x \/ (a = None /\ b = Some x).
Proof.
  destruct a; simpl; auto.
Qed.

Lemma run_Class_inv (p : N -> bool) (caps : list JSString) (s : JSString)
  (k : cont R) (x : R) :
  run (Class p) caps s k = Some x ->
  exists c s', s = c :: s' /\ p c = true /\ k caps s' = Some x.
Proof.
  simpl. destruct s as [|c s']; [discriminate | ].
  destruct (p c) eqn:E; [ | discriminate]. eauto.
Qed.

Lemma run_marker_inv (caps : list JSString) (s : JSString) (k : cont R)
  (x : R) :
  run marker caps s k = Some x ->
  exists mk s', s = mk ++ s' /\ isMarker mk /\ k (caps ++ [mk]) s' = Some x.
Proof.
  unfold marker. cbn [run]. intros H.
  apply orElse_Some in H as [H | [_ H]].
  - fold (Plus digit) in H.
    apply (run_sentence_inv digit) in H as (d & ds & s' & -> & Hd & Hds & H).
    rewrite consumed_app in H.
    exists (d :: ds ++ lit "."), s'.
    split; [reflexivity | split; [ | exact H]].
    left. exists d, ds. auto.
  - apply orElse_Some in H as [H | [_ H]].
    + apply (run_Class_inv bullet caps s
               (fun caps' s' => k (caps' ++ [consumed s s']) s'))
        in H as (c & s' & -> & Hc & H).
      unfold bullet in Hc. apply N.eqb_eq in Hc. subst c.
      change (8226%N :: s') with ([8226%N] ++ s') in H.
      rewrite consumed_app in H.
      exists [8226%N], s'.
      split; [reflexivity | split; [right; left; reflexivity | exact H]].
    + apply (run_Class_inv (char "*") caps s
               (fun caps' s' => k (caps' ++ [consumed s s']) s'))
        in H as (c & s' & -> & Hc & H).
      apply char_true in Hc. subst c.
      change (unit_of "*" :: s') with (lit "*" ++ s') in H.
      rewrite consumed_app in H.
      exists (lit "*"), s'.
      split; [reflexivity | split; [right; right; reflexivity | exact H]].
Qed.

Lemma run_sentence_here (p : N -> bool) (caps : list JSString)
  (c : N) (body s' : JSString) (k : cont R) (x : R) :
  p c = true -> forallb p body = true -> p (unit_of ".") = false ->
  k caps s' = Some x ->
  run (Cat (Plus p) (Class (char "."))) caps ((c :: body ++ lit ".") ++ s') k
  = Some x.
Proof.
  intros Hc Hb Hdot Hk. unfold Plus.
  change ((c :: body ++ lit ".") ++ s') with (c :: (body ++ lit ".") ++ s').
  cbn [run]. rewrite Hc, <- app_assoc.
  apply runStar_longest.
  - exact Hb.
  - exact Hdot.
  - simpl. exact Hk.
Qed.

Lemma run_marker_unfold (caps : list JSString) (s : JSString) (k : cont R) :
  run marker caps s k
  = orElse
      (run (Cat (Plus digit) (Class (char "."))) caps s
         (fun caps' s' => k (caps' ++ [consumed s s']) s'))
      (orElse
         (run (Class bullet) caps s
            (fun caps' s' => k (caps' ++ [consumed s s']) s'))
         (run (Class (char "*")) caps s
            (fun caps' s' => k (caps' ++ [consumed s s']) s'))).
Proof.
  reflexivity.
Qed.

(** A marker at the head of the input is the one the pattern takes. *)
Lemma run_marker_here (mk rest : JSString) (k : cont R) (x : R) :
  isMarker mk ->
  k [mk] rest = Some x ->
  run marker [] (mk ++ rest) k = Some x.
Proof.
  rewrite run_marker_unfold.
  intros [(d & ds & -> & Hd & Hds) | [-> | ->]] Hk.
  - rewrite (run_sentence_here digit [] d ds rest _ x Hd Hds eq_refl).
    + reflexivity.
    + rewrite consumed_app. exact Hk.
  - change ([8226%N] ++ rest) with (8226%N :: rest).
    cbn [run Plus orElse]. change (digit 8226) with false.
    change (bullet 8226) with true. cbn iota.
    rewrite (consumed_app [8226%N] rest : consumed (8226%N :: rest) rest = _).
    cbn [app]. rewrite Hk. reflexivity.
  - change (lit "*") with [42%N] in Hk.
    change (lit "*" ++ rest) with (42%N :: rest).
    cbn [run Plus orElse]. change (digit 42) with false.
    change (bullet 42) with false. change (char "*" 42) with true.
    cbn iota.
    rewrite (consumed_app [42%N] rest : consumed (42%N :: rest) rest = _).
    cbn [app]. rewrite Hk. reflexivity.
Qed.

Lemma runStar_space_all (caps : list JSString) (s : JSString)
  (f : list JSString -> JSString -> R) :
  runStar space caps s (fun caps' s' => Some (f caps' s'))
  = Some (f caps (dropSpaces s)).
Proof.
  induction s as [|c s IH]; simpl; [reflexivity | ].
  destruct (space c); [ | reflexivity].
  rewrite IH. reflexivity.
Qed.

End MarkerRuns.

Lemma dropSpaces_suffix (s : JSString) :
  exists sp, s = sp ++ dropSpaces s.
Proof.
  induction s as [|c s [sp IH]]; simpl.
  - exists []. reflexivity.
  - destruct (space c).
    + exists (c :: sp). simpl. f_equal. exact IH.
    + exists []. reflexivity.
Qed.

Lemma dropSpaces_app_spaces (ws t : JSString) :
  forallb space ws = true -> dropSpaces (ws ++ t) = dropSpaces t.
Proof.
  induction ws as [|c ws IH]; simpl; intros H; [reflexivity | ].
  apply andb_prop in H as [Hc Hw]. rewrite Hc. exact (IH Hw).
Qed.

Lemma dropSpaces_sentence (body : JSString) :
  forallb notDotNorNewline body = true ->
  isSuggestion (dropSpaces (body ++ lit ".")).
Proof.
  induction body as [|c body IH]; simpl; intros H.
  - exists []. simpl. auto.
  - apply andb_prop in H as [Hc Hb].
    destruct (space c) eqn:E; [exact (IH Hb) | ].
    exists (c :: body). simpl. rewrite Hc, Hb. auto.
Qed.

Lemma consumed_of (s m rest : JSString) :
  s = m ++ rest -> consumed s rest = m.
Proof.
  intros ->. apply consumed_app.
Qed.

Lemma matchAt_suggestionPattern_inv (s m : JSString) (caps : list JSString) :
  matchAt suggestionPattern s = Some (m, caps) ->
  exists mk ws c body,
    m = mk ++ ws ++ c :: body ++ lit "."
    /\ isMarker mk /\ forallb space ws = true
    /\ notDotNorNewline c = true /\ forallb notDotNorNewline body = true.
Proof.
  unfold matchAt, suggestionPattern. cbn [run]. intros H.
  apply run_marker_inv in H as (mk & s1 & -> & Hmk & H).
  apply runStar_inv in H as (ws & s2 & -> & Hws & H).
  fold (Plus notDotNorNewline) in H.
  apply (run_sentence_inv notDotNorNewline) in H
    as (c & body & s3 & -> & Hc & Hb & H).
  injection H as <- _.
  exists mk, ws, c, body. repeat apply conj; auto.
  apply consumed_of. rewrite <- !app_assoc. do 2 f_equal.
  simpl. rewrite <- app_assoc. reflexivity.
Qed.

Lemma replace_marker (mk rest : JSString) :
  isMarker mk ->
  replaceFirstWithEmpty markerPattern (mk ++ rest) = dropSpaces rest.
Proof.
  intros Hmk. unfold replaceFirstWithEmpty, exec.
  destruct (dropSpaces_suffix rest) as [sp Hsp].
  assert (Hm : matchAt markerPattern (mk ++ rest) = Some (mk ++ sp, [mk])).
  { unfold matchAt, markerPattern. cbn [run].
    apply run_marker_here; [exact Hmk | ].
    rewrite (runStar_space_all [mk] rest
               (fun caps' s' => (consumed (mk ++ rest) s', caps'))).
    rewrite Hsp at 1. rewrite app_assoc, consumed_app. reflexivity. }
  rewrite (execFrom_here _ _ _ _ _ Hm). simpl.
  rewrite Hsp at 1. rewrite app_assoc. apply skipn_length_app.
Qed.

(** X11: the reported suggestions are never an empty list, and each one
    is a text without a dot or a line break, not opening with white space,
    followed by its dot: the marker and the blanks after it are gone. *)
Theorem extractSuggestions_sentences (content : list ContentBlock.t)
  (suggestions : list JSString) :
  extractSuggestions content = Some suggestions ->
  suggestions <> [] /\ Forall isSuggestion suggestions.
Proof.
  unfold extractSuggestions, matchAll. intros H.
  destruct (matchAllFrom suggestionPattern 0 (textContent content))
    as [|m ms] eqn:E; [discriminate | ].
  injection H as <-. split; [discriminate | ].
  apply Forall_forall. intros sg Hsg.
  change (In sg (map (replaceFirstWithEmpty markerPattern) (m :: ms)))
    in Hsg.
  apply in_map_iff in Hsg as (m0 & <- & Hin).
  rewrite <- E in Hin.
  apply matchAllFrom_In in Hin as (s' & caps & Hm).
  apply matchAt_suggestionPattern_inv in Hm
    as (mk & ws & c & body & -> & Hmk & Hws & Hc & Hb).
  rewrite (replace_marker mk _ Hmk), dropSpaces_app_spaces by exact Hws.
  apply (dropSpaces_sentence (c :: body)). simpl. rewrite Hc, Hb.
  reflexivity.
Qed.

(** X11 on a numbered and a starred suggestion. *)
Lemma extractSuggestions_sentences_witness :
  [lit "Restart the node."; lit "Check the nonce."] <> []
  /\ Forall isSuggestion [lit "Restart the node."; lit "Check the nonce."].
Proof.
  apply (extractSuggestions_sentences
           [ {| ContentBlock.type := lit "text";
                ContentBlock.text :=
                  Some (lit "Steps: 1. Restart the node. *  Check the nonce.");
                ContentBlock.citations := None |} ]
           [lit "Restart the node."; lit "Check the nonce."]).
  reflexivity.
Defined.

(** ** Commands that word the issue themselves *)

(** X17: the outcome of [analyzePerformance] is the outcome of the one
    [debug] call it awaits, a rejection included, and it words the issue of
    that call so that the classifier asks for code execution and the
    selector answers the high tier, whatever the data; the lower-casing of
    the host maps the opening words to their lower case and leaves the rest
    to itself. *)
Theorem analyzePerformance_high_tier (toLowerCase : JSString -> JSString)
  (data : JSString) (userContext : option JSString) :
  (forall s, toLowerCase (lit "Analyze Sei EVM performance: " ++ s)
             = lit "analyze sei evm performance: " ++ toLowerCase s) ->
  exists issue,
    (forall (Thrown Report : Type) (agent : AgentCall -> Thrown + Report),
        analyzePerformance agent data userContext
        = agent (Debug issue userContext))
    /\ requiresCodeExecution (classifyIssue toLowerCase issue userContext)
       = Some true
    /\ selectModel (classifyIssue toLowerCase issue userContext) = OPUS_4.
Proof.
  intros Hlow. unfold analyzePerformance. eexists.
  split; [intros; reflexivity | ].
  assert (Hc : requiresCodeExecution
                 (classifyIssue toLowerCase
                    (lit "Analyze Sei EVM performance: " ++ data
                     ++ lit ". Focus on parallel execution efficiency and block timing.")
                    userContext) = Some true).
  { unfold classifyIssue. cbn [requiresCodeExecution]. rewrite Hlow.
    f_equal. apply orb_true_iff. right. reflexivity. }
  split; [exact Hc | ].
  apply selectModel_OPUS_4_iff. right. left. rewrite Hc. reflexivity.
Qed.

(** X17 with the lower-casing of ASCII text. *)
Lemma analyzePerformance_high_tier_witness :
  exists issue,
    (forall (Thrown Report : Type) (agent : AgentCall -> Thrown + Report),
        analyzePerformance agent (lit "tps dropped") None
        = agent (Debug issue None))
    /\ requiresCodeExecution (classifyIssue asciiToLowerCase issue None)
       = Some true
    /\ selectModel (classifyIssue asciiToLowerCase issue None) = OPUS_4.
Proof.
  apply (analyzePerformance_high_tier asciiToLowerCase (lit "tps dropped") None).
  intros s. unfold asciiToLowerCase. rewrite map_app. reflexivity.
Defined.

(** X18: the issue of [debugContractDeployment] is never classified as
    general: it is a contract issue unless a hash, gas, parallel execution
    or state is named. *)
Theorem debugContractDeployment_never_general
  (toLowerCase : JSString -> JSString)
  (data : JSString) (userContext : option JSString) :
  (forall s, toLowerCase (lit "Debug contract deployment: " ++ s)
             = lit "debug contract deployment: " ++ toLowerCase s) ->
  exists issue,
    debugContractDeployment data userContext = inr (Debug issue userContext)
    /\ type (classifyIssue toLowerCase issue userContext) <> general
    /\ (type (classifyIssue toLowerCase issue userContext) = contract
        <-> test hashPattern issue = false
            /\ includes (toLowerCase issue) (lit "gas") = false
            /\ includes (toLowerCase issue) (lit "parallel") = false
            /\ includes (toLowerCase issue) (lit "state") = false).
Proof.
  intros Hlow. unfold debugContractDeployment. eexists.
  split; [reflexivity | ].
  unfold classifyIssue. cbn [type].
  assert (Hc : includes
                 (toLowerCase (lit "Debug contract deployment: " ++ data))
                 (lit "contract") = true)
    by (rewrite Hlow; reflexivity).
  rewrite Hc.
  destruct (test hashPattern (lit "Debug contract deployment: " ++ data));
    destruct (includes _ (lit "gas"));
    destruct (includes _ (lit "parallel"));
    destruct (includes _ (lit "state")); simpl;
    (split; [discriminate | split; [intros H; try discriminate; auto
                                   | intros (H1 & H2 & H3 & H4);
                                     try discriminate; reflexivity]]).
Qed.

(** X18 with the lower-casing of ASCII text, on data that names gas. *)
Lemma debugContractDeployment_never_general_witness :
  exists issue,
    debugContractDeployment (lit "out of gas") None = inr (Debug issue None)
    /\ type (classifyIssue asciiToLowerCase issue None) <> general
    /\ (type (classifyIssue asciiToLowerCase issue None) = contract
        <-> test hashPattern issue = false
            /\ includes (asciiToLowerCase issue) (lit "gas") = false
            /\ includes (asciiToLowerCase issue) (lit "parallel") = false
            /\ includes (asciiToLowerCase issue) (lit "state") = false).
Proof.
  apply (debugContractDeployment_never_general asciiToLowerCase
           (lit "out of gas") None).
  intros s. unfold asciiToLowerCase. rewrite map_app. reflexivity.
Defined.

(** * Further properties: the cost estimate *)

Lemma binary_round_aux_plus (mx ex : Z) (lx : location) :
  (0 <= mx)%Z -> plusSF (binary_round_aux prec emax false mx ex lx).
Proof.
  intros H. unfold binary_round_aux.
  pose proof (shr_fexp_nonneg mx ex lx H) as H1.
  destruct (shr_fexp prec emax mx ex lx) as [mrs' e']. simpl in H1.
  pose proof (shr_fexp_nonneg _ e' loc_Exact
                (round_nearest_even_nonneg _ (loc_of_shr_record mrs') H1))
    as H2.
  destruct (shr_fexp prec emax _ e' loc_Exact) as [mrs'' e'']. simpl in H2.
  destruct (shr_m mrs'') as [|m|m]; simpl; auto; try lia.
  destruct (e'' <=? _)%Z; reflexivity.
Qed.

Lemma SFmul_plus (x y : spec_float) :
  plusSF x -> positiveSF y -> plusSF (SF64mul x y).
Proof.
  destruct x as [[]|[]| |[] mx ex], y as [[]|[]| |[] my ey]; simpl;
    intros Hx Hy; try tauto; try discriminate; try reflexivity.
  apply binary_round_aux_plus. lia.
Qed.

Lemma SFdiv_plus (x y : spec_float) :
  plusSF x -> positiveSF y -> plusSF (SF64div x y).
Proof.
  destruct x as [[]|[]| |[] mx ex], y as [[]|[]| |[] my ey]; simpl;
    intros Hx Hy; try tauto; try discriminate; try reflexivity.
  unfold SFdiv_core_binary.
  set (s := (_ - _ - _)%Z).
  set (m' := match s with Z0 => _ | Zpos _ => _ | Zneg _ => _ end).
  assert (Hm : (0 <= m')%Z).
  { subst m'. destruct s; try lia. apply Z.shiftl_nonneg. lia. }
  pose proof (Z_div_mod m' (Zpos my) ltac:(lia)) as Hd.
  destruct (Z.div_eucl m' (Z.pos my)) as [q r].
  apply binary_round_aux_plus. nia.
Qed.

Lemma SFadd_zero_plus (y : spec_float) :
  plusSF y -> SF64add (S754_zero false) y = y.
Proof.
  destruct y as [[]|[]| |[] my ey]; simpl; intros H;
    try tauto; try discriminate; reflexivity.
Qed.

Lemma plusSF_nonneg (f : spec_float) : plusSF f -> nonnegSF f.
Proof.
  destruct f; simpl; auto.
Qed.

Lemma nonnegSF_leb (x : float) :
  nonnegSF (Prim2SF x) -> (0 <=? x)%float = true.
Proof.
  rewrite leb_spec. change (Prim2SF 0) with (S754_zero false).
  unfold SFleb. destruct (Prim2SF x) as [[]|[]| |[] m e]; simpl;
    intros H; try tauto; try discriminate; reflexivity.
Qed.

(** A truthy number that is not negative is above zero. *)
Lemma truthy_nonneg_plus (v : float) :
  truthyNumber v = true -> (0 <=? v)%float = true -> plusSF (Prim2SF v).
Proof.
  unfold truthyNumber, PrimFloat.is_zero. intros Ht Hv.
  apply negb_true_iff, orb_false_iff in Ht as [Hz _].
  apply leb_zero_nonneg in Hv.
  rewrite FloatAxioms.eqb_spec in Hz.
  change (Prim2SF PrimFloat.zero) with (S754_zero false) in Hz.
  destruct (Prim2SF v) as [[]|[]| |[] m e]; simpl in *;
    try tauto; try discriminate; reflexivity.
Qed.

Lemma orNumber_plus (x : option float) (d : float) :
  nonnegNumber x -> plusSF (Prim2SF d) -> plusSF (Prim2SF (orNumber x d)).
Proof.
  intros Hx Hd. unfold orNumber. destruct x as [v|]; [ | exact Hd].
  destruct (truthyNumber v) eqn:E; [ | exact Hd].
  apply truthy_nonneg_plus; [exact E | apply Hx; reflexivity].
Qed.

Lemma costPerKToken_positive (m : ModelType) :
  positiveSF (Prim2SF (costPerKToken m)).
Proof.
  destruct m; vm_compute; reflexivity.
Qed.

Lemma calculateTokenCost_rate (tokens : float) (m : ModelType) :
  calculateTokenCost tokens m = ((tokens / 1000) * costPerKToken m)%float.
Proof.
  destruct m; reflexivity.
Qed.

Lemma searchCost_plus (t : DebugTask) :
  nonnegNumber (estimatedSearches t) ->
  plusSF (Prim2SF (searchCost (estimateCost t))).
Proof.
  intros Hs. unfold estimateCost. simpl.
  rewrite mul_spec. apply SFmul_plus.
  - apply orNumber_plus; [exact Hs | reflexivity].
  - vm_compute. reflexivity.
Qed.

Lemma tokenCost_plus (t : DebugTask) :
  nonnegNumber (estimatedTokens t) ->
  plusSF (Prim2SF (tokenCost (estimateCost t))).
Proof.
  intros Ht. unfold estimateCost. simpl.
  rewrite calculateTokenCost_rate, mul_spec. apply SFmul_plus.
  - rewrite div_spec. apply SFdiv_plus.
    + apply orNumber_plus; [exact Ht | vm_compute; reflexivity].
    + vm_compute. reflexivity.
  - apply costPerKToken_positive.
Qed.

(** X12: when the two estimated counts are absent or not negative, the
    three figures of an estimate are numbers and none is below zero. *)
Theorem estimateCost_not_negative (t : DebugTask) :
  nonnegNumber (estimatedSearches t) ->
  nonnegNumber (estimatedTokens t) ->
  (0 <=? searchCost (estimateCost t))%float = true
  /\ (0 <=? tokenCost (estimateCost t))%float = true
  /\ (0 <=? total (estimateCost t))%float = true.
Proof.
  intros Hs Ht.
  pose proof (searchCost_plus t Hs) as H1.
  pose proof (tokenCost_plus t Ht) as H2.
  repeat apply conj.
  - apply nonnegSF_leb, plusSF_nonneg, H1.
  - apply nonnegSF_leb, plusSF_nonneg, H2.
  - apply nonnegSF_leb.
    change (total (estimateCost t))
      with (searchCost (estimateCost t) + tokenCost (estimateCost t))%float.
    rewrite add_spec. apply SFadd_nonneg; apply plusSF_nonneg; assumption.
Qed.

(** X12 on a descriptor with three searches and no token count. *)
Lemma estimateCost_not_negative_witness :
  (0 <=? total (estimateCost (createTask (Some 3%float) None)))%float = true.
Proof.
  apply (estimateCost_not_negative (createTask (Some 3%float) None)).
  - intros v [= <-]. reflexivity.
  - intros v H. discriminate.
Defined.

(** X13: without searches (the count absent, zero or [NaN]) and with a
    token count that is absent or not negative, the search cost is 0 and
    the total is the token cost itself. *)
Theorem estimateCost_without_searches (t : DebugTask) :
  noSearches t ->
  nonnegNumber (estimatedTokens t) ->
  searchCost (estimateCost t) = 0%float
  /\ total (estimateCost t) = tokenCost (estimateCost t).
Proof.
  intros Hn Ht.
  assert (Hs : searchCost (estimateCost t) = 0%float).
  { unfold estimateCost. simpl.
    destruct Hn as [-> | (v & -> & Hv)]; simpl; [ | rewrite Hv]; reflexivity. }
  split; [exact Hs | ].
  apply Prim2SF_inj.
  change (total (estimateCost t))
    with (searchCost (estimateCost t) + tokenCost (estimateCost t))%float.
  rewrite add_spec, Hs.
  apply SFadd_zero_plus, tokenCost_plus, Ht.
Qed.

(** X13 on a descriptor with zero searches and 1000 tokens. *)
Lemma estimateCost_without_searches_witness :
  total (estimateCost (createTask (Some 0%float) (Some 1000%float)))
  = tokenCost (estimateCost (createTask (Some 0%float) (Some 1000%float))).
Proof.
  apply (estimateCost_without_searches
           (createTask (Some 0%float) (Some 1000%float))).
  - right. exists 0%float. split; reflexivity.
  - intros v [= <-]. reflexivity.
Defined.

(** ** What an issue costs *)

(** X14: the estimate of a classified issue takes one of five totals,
    from 0.0425 to 0.255 as binary64 computes them, whatever the text. *)
Theorem classified_estimate_values (toLowerCase : JSString -> JSString)
  (issue : JSString) (userContext : option JSString) :
  In (total (estimateCost (classifyIssue toLowerCase issue userContext)))
    [0.042499999999999996; 0.13249999999999998; 0.1425;
     0.24499999999999997; 0.255]%float
  /\ (0.0424 <=? total (estimateCost
                          (classifyIssue toLowerCase issue userContext)))%float
     = true
  /\ (total (estimateCost (classifyIssue toLowerCase issue userContext))
      <=? 0.255)%float = true.
Proof.
  unfold classifyIssue, estimateCost, selectModel, calculateTokenCost.
  cbn [estimatedSearches estimatedTokens requiresDeepAnalysis
       requiresCodeExecution isSimpleQuery isStatusCheck complexity type
       total searchCost tokenCost].
  destruct (test hashPattern issue);
    destruct (includes (toLowerCase issue) (lit "revert")
              || includes (toLowerCase issue) (lit "failed")
              || includes (toLowerCase issue) (lit "error"));
    destruct (includes (toLowerCase issue) (lit "how")
              || includes (toLowerCase issue) (lit "what")
              || includes (toLowerCase issue) (lit "status"));
    destruct (includes (toLowerCase issue) (lit "gas"));
    destruct (includes (toLowerCase issue) (lit "parallel")
              || includes (toLowerCase issue) (lit "state"));
    destruct (includes (toLowerCase issue) (lit "contract"));
    destruct (includes (toLowerCase issue) (lit "analyze"));
    destruct (includes (toLowerCase issue) (lit "status")
              || includes (toLowerCase issue) (lit "check"));
    vm_compute; intuition.
Qed.

(** X16: a classified issue gets the standard tier exactly when its type
    is contract or general, its complexity is not high and its text does
    not name an analysis. *)
Theorem classified_standard_tier (toLowerCase : JSString -> JSString)
  (issue : JSString) (userContext : option JSString) :
  selectModel (classifyIssue toLowerCase issue userContext) = SONNET_4
  <-> (type (classifyIssue toLowerCase issue userContext) = contract
       \/ type (classifyIssue toLowerCase issue userContext) = general)
      /\ complexity (classifyIssue toLowerCase issue userContext) <> high
      /\ includes (toLowerCase issue) (lit "analyze") = false.
Proof.
  unfold classifyIssue, selectModel.
  cbn [requiresDeepAnalysis requiresCodeExecution isSimpleQuery
       isStatusCheck complexity type].
  destruct (test hashPattern issue);
    destruct (includes (toLowerCase issue) (lit "revert")
              || includes (toLowerCase issue) (lit "failed")
              || includes (toLowerCase issue) (lit "error"));
    destruct (includes (toLowerCase issue) (lit "how")
              || includes (toLowerCase issue) (lit "what")
              || includes (toLowerCase issue) (lit "status"));
    destruct (includes (toLowerCase issue) (lit "gas"));
    destruct (includes (toLowerCase issue) (lit "parallel")
              || includes (toLowerCase issue) (lit "state"));
    destruct (includes (toLowerCase issue) (lit "contract"));
    destruct (includes (toLowerCase issue) (lit "analyze"));
    destruct (includes (toLowerCase issue) (lit "status")
              || includes (toLowerCase issue) (lit "check"));
    simpl; split; intros H; try discriminate; try reflexivity;
    try (repeat split; auto; discriminate);
    try (destruct H as ([H | H] & Hc & Ha); try discriminate; congruence).
Qed.

(** ** The cap on web searches *)

Lemma ltb_leb (a b : float) : (a <? b)%float = true -> (a <=? b)%float = true.
Proof.
  rewrite ltb_spec, leb_spec. unfold SFltb, SFleb.
  destruct (SFcompare (Prim2SF a) (Prim2SF b)) as [[]|];
    try discriminate; reflexivity.
Qed.

Lemma orNumber_number (x : option float) (d : float) :
  PrimFloat.is_nan d = false -> PrimFloat.is_nan (orNumber x d) = false.
Proof.
  intros Hd. unfold orNumber. destruct x as [v|]; [ | exact Hd].
  destruct (truthyNumber v) eqn:E; [ | exact Hd].
  unfold truthyNumber in E.
  apply negb_true_iff, orb_false_iff in E as [_ E]. exact E.
Qed.

(** X15: the [max_uses] of the web search is a number and never above 5;
    it is 3 when the estimated count is absent or zero, although the cost
    estimate then counts no search. *)
Theorem searchMaxUses_capped (t : DebugTask) :
  (searchMaxUses t <=? 5)%float = true
  /\ PrimFloat.is_nan (searchMaxUses t) = false
  /\ (estimatedSearches t = None ->
      searchMaxUses t = 3%float /\ searchCost (estimateCost t) = 0%float)
  /\ (estimatedSearches t = Some 0%float -> searchMaxUses t = 3%float).
Proof.
  unfold searchMaxUses, mathMin.
  pose proof (orNumber_number (estimatedSearches t) 3 eq_refl) as Hn.
  rewrite Hn. change (PrimFloat.is_nan 5) with false. cbn [orb].
  repeat apply conj.
  - destruct (orNumber (estimatedSearches t) 3 <? 5)%float eqn:E1.
    + apply ltb_leb, E1.
    + destruct (5 <? orNumber (estimatedSearches t) 3)%float eqn:E2;
        [reflexivity | ].
      destruct (PrimFloat.is_zero (orNumber (estimatedSearches t) 3)
                && get_sign (orNumber (estimatedSearches t) 3)) eqn:E3;
        [ | reflexivity].
      exfalso. apply andb_prop in E3 as [Hz _].
      unfold PrimFloat.is_zero in Hz.
      rewrite ltb_spec in E1. rewrite FloatAxioms.eqb_spec in Hz.
      change (Prim2SF PrimFloat.zero) with (S754_zero false) in Hz.
      change (Prim2SF 5) with (S754_finite false 5629499534213120 (-50)) in E1.
      destruct (Prim2SF (orNumber (estimatedSearches t) 3))
        as [[]|[]| |[] m e]; simpl in *; discriminate.
  - destruct (orNumber (estimatedSearches t) 3 <? 5)%float; [exact Hn | ].
    destruct (5 <? orNumber (estimatedSearches t) 3)%float; [reflexivity | ].
    destruct (PrimFloat.is_zero (orNumber (estimatedSearches t) 3)
              && get_sign (orNumber (estimatedSearches t) 3));
      [exact Hn | reflexivity].
  - intros H. unfold estimateCost. rewrite H. split; reflexivity.
  - intros H. rewrite H. reflexivity.
Qed.
